(** * Wikipedia Researcher Assistant: the research pipeline and its session history

    A shallow embedding of [agents/nodes.py], [agents/workflow.py] and
    [utils/helpers.py].  The three LangGraph nodes are functions from a state
    dictionary to an update dictionary, written in a small monad that threads
    the state of the outside world (Wikipedia, the OpenAI endpoint) and records
    every provider call together with its outcome.  Logging is not modelled. *)

From Stdlib Require Import List String Ascii ZArith QArith Lia Bool Arith.
From Stdlib Require Import DecimalString.
Import ListNotations.
Local Open Scope string_scope.
Local Open Scope list_scope.
Local Open Scope Z_scope.

(** ** Python strings and slices

    A Python [str] is modelled as a [string] whose characters are the code
    points 0..255. *)

Definition str_len (s : string) : Z := Z.of_nat (String.length s).

Fixpoint str_take (n : nat) (s : string) : string :=
  match n, s with
  | O, _ => EmptyString
  | S _, EmptyString => EmptyString
  | S n', String c rest => String c (str_take n' rest)
  end.

(** [s[:n]] for an arbitrary integer [n]: a negative bound counts from the
    end, and every bound is clamped to the string. *)
Definition py_str_upto (n : Z) (s : string) : string :=
  if 0 <=? n then str_take (Z.to_nat n) s
  else str_take (Z.to_nat (str_len s + n)) s.

(** [l[:n]] on a list. *)
Definition py_list_upto {A : Type} (n : Z) (l : list A) : list A :=
  if 0 <=? n then firstn (Z.to_nat n) l
  else firstn (Z.to_nat (Z.of_nat (List.length l) + n)) l.

(** [l[-k:]] for a positive literal [k]. *)
Definition py_list_last {A : Type} (k : nat) (l : list A) : list A :=
  skipn (List.length l - k) l.

(** [str.isspace] on one character: TAB..CR, FS..US, SPACE, NEL, NBSP. *)
Definition isspace (c : ascii) : bool :=
  let n := nat_of_ascii c in
  ((9 <=? n) && (n <=? 13) || (28 <=? n) && (n <=? 32)
   || (n =? 133) || (n =? 160))%nat.

Definition str_is_empty (s : string) : bool :=
  match s with EmptyString => true | String _ _ => false end.

Fixpoint str_forallb (f : ascii -> bool) (s : string) : bool :=
  match s with
  | EmptyString => true
  | String c rest => f c && str_forallb f rest
  end.

(** Only whitespace, as in [not s.strip()]; and no whitespace at all. *)
Definition all_space (s : string) : bool := str_forallb isspace s.
Definition no_space (s : string) : bool :=
  str_forallb (fun c => negb (isspace c)) s.

(** [str.split()] with no separator: maximal runs of non-space characters.
    [cur] is the token being read. *)
Fixpoint split_from (s : string) (cur : string) : list string :=
  match s with
  | EmptyString => if str_is_empty cur then [] else [cur]
  | String c rest =>
      if isspace c then
        if str_is_empty cur then split_from rest EmptyString
        else cur :: split_from rest EmptyString
      else split_from rest (cur ++ String c EmptyString)%string
  end.

Definition py_split (s : string) : list string := split_from s EmptyString.

(** [sep.join(parts)]. *)
Fixpoint py_join (sep : string) (parts : list string) : string :=
  match parts with
  | [] => EmptyString
  | [p] => p
  | p :: rest => (p ++ sep ++ py_join sep rest)%string
  end.

Definition nl : string := String (ascii_of_nat 10) EmptyString.

(** ** Data model *)

(** What [wikipedia.page] hands back; [summary] may be [None]. *)
Record Page := mkPage {
  page_content : string;
  page_url : string;
  page_summary : option string
}.

(** An entry of [documents]. *)
Record Document := mkDocument {
  doc_title : string;
  doc_content : string;
  doc_url : string;
  doc_summary : string
}.

(** An entry of [sources]. *)
Record Source := mkSource {
  src_title : string;
  src_url : string;
  src_summary : string
}.

(** A dictionary over the keys of [ResearchState]; a key may be absent, as
    in the partial dictionaries the nodes return. *)
Record Dict := mkDict {
  d_query : option string;
  d_search_results : option (list string);
  d_documents : option (list Document);
  d_answer : option string;
  d_sources : option (list Source);
  d_error : option string
}.

Definition ResearchState := Dict.

(** [inputs.get(key, default)]. *)
Definition get_query (d : Dict) : string :=
  match d_query d with Some q => q | None => EmptyString end.
Definition get_search_results (d : Dict) : list string :=
  match d_search_results d with Some l => l | None => [] end.
Definition get_documents (d : Dict) : list Document :=
  match d_documents d with Some l => l | None => [] end.
Definition get_answer (d : Dict) : string :=
  match d_answer d with Some a => a | None => EmptyString end.
Definition get_sources (d : Dict) : list Source :=
  match d_sources d with Some l => l | None => [] end.

Definition or_else {A : Type} (new old : option A) : option A :=
  match new with Some _ => new | None => old end.

(** The graph writes a node's update into the state: a key the node
    returned replaces the old value, the others are kept. *)
Definition merge (state update : Dict) : Dict :=
  {| d_query := or_else (d_query update) (d_query state);
     d_search_results :=
       or_else (d_search_results update) (d_search_results state);
     d_documents := or_else (d_documents update) (d_documents state);
     d_answer := or_else (d_answer update) (d_answer state);
     d_sources := or_else (d_sources update) (d_sources state);
     d_error := or_else (d_error update) (d_error state) |}.

(** ** The external providers *)

(** [wikipedia.search]: a list of titles, a [DisambiguationError] carrying
    [options], or any other exception with its [str(e)]. *)
Inductive SearchOutcome :=
| SearchOk (titles : list string)
| SearchDisambiguation (options : list string)
| SearchFault (msg : string).

(** [wikipedia.page]. *)
Inductive PageOutcome :=
| PageOk (page : Page)
| PageDisambiguation (options : list string)
| PageError
| PageFault (msg : string).

(** The arguments of [client.chat.completions.create]. *)
Record ChatRequest := mkChatRequest {
  chat_model : string;
  chat_prompt : string;
  chat_temperature : Q;
  chat_max_tokens : Z
}.

(** Its outcome: [response.choices[0].message.content], or an exception. *)
Inductive ChatOutcome :=
| ChatOk (content : string)
| ChatFault (msg : string).

(** One provider call with what it returned. *)
Inductive Event :=
| EvSearch (term : string) (results : Z) (out : SearchOutcome)
| EvPage (title : string) (out : PageOutcome)
| EvChat (req : ChatRequest) (out : ChatOutcome).

(** An exception that leaves a call, or its value. *)
Inductive Outcome (A : Type) :=
| Returned (a : A)
| Raised (msg : string).
Arguments Returned {A} a.
Arguments Raised {A} msg.

(** ** Fixed texts *)

Definition truncation_marker : string := "... [Content truncated]".
Definition no_query_text : string := "No query provided".
Definition no_results_text : string := "No search results to process".
Definition apology_text : string :=
  "I couldn't find any relevant Wikipedia articles for your query. Please try rephrasing your question or using different keywords.".
Definition gpt_error_prefix : string :=
  "I encountered an error while processing your request: ".
Definition research_error_prefix : string :=
  "An error occurred during research: ".

(** ** The session history of [utils/helpers.py] *)

(** An entry of [st.session_state.research_history]. *)
Record HistoryEntry := mkHistoryEntry {
  h_query : string;
  h_result : ResearchState;
  h_timestamp : string
}.

(** The keys of [st.session_state] the helpers touch; each may be unset. *)
Record SessionState := mkSessionState {
  research_history : option (list HistoryEntry);
  current_query : option string;
  timestamp : option string
}.

Definition get_timestamp (st : SessionState) : string :=
  match timestamp st with Some t => t | None => EmptyString end.

Definition get_history (st : SessionState) : list HistoryEntry :=
  match research_history st with Some h => h | None => [] end.

Definition set_history (h : list HistoryEntry) (st : SessionState)
    : SessionState :=
  {| research_history := Some h; current_query := current_query st;
     timestamp := timestamp st |}.

Definition initialize_session_state (st : SessionState) : SessionState :=
  let st :=
    match research_history st with
    | None => set_history [] st
    | Some _ => st
    end in
  match current_query st with
  | None =>
      {| research_history := research_history st;
         current_query := Some EmptyString; timestamp := timestamp st |}
  | Some _ => st
  end.

Definition add_to_history (query : string) (result : ResearchState)
    (st : SessionState) : SessionState :=
  let st :=
    match research_history st with
    | None => set_history [] st
    | Some _ => st
    end in
  let st :=
    set_history
      (get_history st
         ++ [{| h_query := query; h_result := result;
                h_timestamp := get_timestamp st |}]) st in
  if (10 <? List.length (get_history st))%nat
  then set_history (py_list_last 10 (get_history st)) st
  else st.

(** A sequence of requests, each added after the other. *)
Definition add_all (requests : list (string * ResearchState))
    (st : SessionState) : SessionState :=
  fold_left (fun st qr => add_to_history (fst qr) (snd qr) st) requests st.

(** The entry a request leaves in the history. *)
Definition history_entry (st : SessionState) (qr : string * ResearchState)
    : HistoryEntry :=
  {| h_query := fst qr; h_result := snd qr;
     h_timestamp := get_timestamp st |}.

(** ** The display helpers of [utils/helpers.py]

    What the helpers put on the page is modelled as the list of widgets
    they emit, in order.  A heading whose text is fixed is part of the
    widget's constructor. *)

(** [str(i)] for a counter. *)
Definition str_of_nat (i : nat) : string :=
  NilEmpty.string_of_uint (Nat.to_uint i).

(** [s.lstrip()], [s.rstrip()] and [s.strip()] with no argument. *)
Fixpoint str_lstrip (s : string) : string :=
  match s with
  | EmptyString => EmptyString
  | String c rest => if isspace c then str_lstrip rest else s
  end.

Fixpoint str_rstrip (s : string) : string :=
  match s with
  | EmptyString => EmptyString
  | String c rest =>
      let r := str_rstrip rest in
      if isspace c && str_is_empty r then EmptyString else String c r
  end.

Definition py_strip (s : string) : string := str_rstrip (str_lstrip s).

(** [x in s] for strings. *)
Definition str_contains (s x : string) : Prop :=
  exists pre post, s = (pre ++ x ++ post)%string.

(** A source as [format_sources] reads it: any key may be missing. *)
Record SourceDict := mkSourceDict {
  sd_title : option string;
  sd_url : option string;
  sd_summary : option string
}.

(** The dictionaries the synthesis node builds have the three keys. *)
Definition source_dict (s : Source) : SourceDict :=
  {| sd_title := Some (src_title s); sd_url := Some (src_url s);
     sd_summary := Some (src_summary s) |}.

(** The second line of an entry: [summary[:200]] and dots when longer. *)
Definition summary_line (summary : string) : string :=
  (nl ++ "   *" ++ py_str_upto 200 summary
      ++ (if (200 <? String.length summary)%nat then "..." else "")
      ++ "*")%string.

(** The body of the loop of [format_sources] for entry number [i]. *)
Definition format_source (i : nat) (source : SourceDict) : string :=
  let title := match sd_title source with Some t => t | None => "Unknown" end in
  let url := match sd_url source with Some u => u | None => "#" end in
  let summary :=
    match sd_summary source with Some x => x | None => EmptyString end in
  let source_text :=
    (str_of_nat i ++ ". **[" ++ title ++ "](" ++ url ++ ")**")%string in
  if str_is_empty summary then source_text
  else (source_text ++ summary_line summary)%string.

(** [for i, source in enumerate(sources, 1)], appending to
    [formatted_sources]. *)
Fixpoint format_sources_loop (i : nat) (sources : list SourceDict)
    (formatted_sources : list string) : list string :=
  match sources with
  | [] => formatted_sources
  | source :: rest =>
      format_sources_loop (S i) rest
        (formatted_sources ++ [format_source i source])
  end.

Definition format_sources (sources : list SourceDict) : string :=
  match sources with
  | [] => "No sources available"
  | _ => py_join (nl ++ nl)%string (format_sources_loop 1 sources [])
  end.

Inductive Widget :=
| AnswerSection (answer : string)
| SourcesSection (markdown : string)
| ErrorBox (text : string)
| RecentSearchesHeader
| HistoryButton (label key : string)
| BlankQueryWarning.

Definition get_error (d : Dict) : string :=
  match d_error d with Some e => e | None => EmptyString end.

(** [display_research_results]: the answer under its heading, the
    formatted sources under theirs, the error in an error box. *)
Definition display_research_results (result : Dict) : list Widget :=
  (if str_is_empty (get_answer result) then []
   else [AnswerSection (get_answer result)])
  ++ (match get_sources result with
      | [] => []
      | sources => [SourcesSection (format_sources (map source_dict sources))]
      end)
  ++ (if str_is_empty (get_error result) then []
      else [ErrorBox ("Error: " ++ get_error result)%string]).

Definition set_current_query (query : string) (st : SessionState)
    : SessionState :=
  {| research_history := research_history st; current_query := Some query;
     timestamp := timestamp st |}.

(** The label of a history button: a query of more than 50 characters is
    cut to 47 and dots. *)
Definition history_label (i : nat) (query : string) : string :=
  let query :=
    if (50 <? String.length query)%nat
    then (py_str_upto 47 query ++ "...")%string else query in
  (str_of_nat i ++ ". " ++ query)%string.

Definition history_key (i : nat) : string :=
  ("history_" ++ str_of_nat i)%string.

(** The loop of [display_search_history] from counter [i].  [clicked]
    tells for a key whether [st.button] returns true; a click sets
    [current_query] and [st.rerun()] ends the script, which the last
    component reports. *)
Fixpoint history_buttons (i : nat) (items : list HistoryEntry)
    (clicked : string -> bool) (st : SessionState)
    : list Widget * SessionState * bool :=
  match items with
  | [] => ([], st, false)
  | item :: rest =>
      let button := HistoryButton (history_label i (h_query item))
                      (history_key i) in
      if clicked (history_key i)
      then ([button], set_current_query (h_query item) st, true)
      else
        let '(widgets, st', rerun) :=
          history_buttons (S i) rest clicked st in
        (button :: widgets, st', rerun)
  end.

Definition display_search_history (clicked : string -> bool)
    (st : SessionState) : list Widget * SessionState * bool :=
  match get_history st with
  | [] => ([], st, false)
  | history =>
      let '(widgets, st', rerun) :=
        history_buttons 1 (rev (py_list_last 5 history)) clicked st in
      (RecentSearchesHeader :: widgets, st', rerun)
  end.

(** The kind of a provider call. *)
Definition is_search (e : Event) : bool :=
  match e with EvSearch _ _ _ => true | _ => false end.
Definition is_page (e : Event) : bool :=
  match e with EvPage _ _ => true | _ => false end.
Definition is_chat (e : Event) : bool :=
  match e with EvChat _ _ => true | _ => false end.

(** The calls the fetch loop may make for one title: one fetch of the
    title, followed, only when that fetch raised a disambiguation with
    options, by one fetch of the first option. *)
Definition title_calls (title : string) (block : list Event) : Prop :=
  (exists out,
     block = [EvPage title out]
     /\ forall first others, out <> PageDisambiguation (first :: others))
  \/ (exists first others out2,
        block = [EvPage title (PageDisambiguation (first :: others));
                 EvPage first out2]).

(** ** Sample providers

    A small world for running the pipeline: the state counts the calls
    made so far. *)

Module Demo.

Definition catalogue : list string :=
  ["Quantum computing"; "Qubit"; "Mercury"; "Quantum entanglement"].

(** Finds the catalogue for two terms and nothing for any other. *)
Definition search (w : nat) (term : string) (n : Z)
    : SearchOutcome * nat :=
  (if String.eqb term "Quantum computing" || String.eqb term "Quantum"
   then SearchOk (firstn (Z.to_nat n) catalogue)
   else SearchOk [],
   S w).

(** A search that ignores the limit it is given. *)
Definition search_unbounded (w : nat) (term : string) (n : Z)
    : SearchOutcome * nat :=
  (SearchOk catalogue, S w).

(** ["Mercury"] is ambiguous, ["Mercury (element)"] is missing, every
    other title has a page. *)
Definition page (w : nat) (title : string) : PageOutcome * nat :=
  (if String.eqb title "Mercury"
   then PageDisambiguation ["Mercury (planet)"; "Mercury (element)"]
   else if String.eqb title "Mercury (element)" then PageError
   else PageOk {| page_content := ("Content of " ++ title)%string;
                  page_url :=
                    ("https://en.wikipedia.org/wiki/" ++ title)%string;
                  page_summary := Some ("About " ++ title)%string |},
   S w).

(** A generation service that answers with a fixed text. *)
Definition chat (w : nat) (req : ChatRequest) : ChatOutcome * nat :=
  (ChatOk "Quantum computers use qubits.", S w).

(** One that is down. *)
Definition chat_down (w : nat) (req : ChatRequest) : ChatOutcome * nat :=
  (ChatFault "Connection error.", S w).

(** One that answers with the empty text. *)
Definition chat_silent (w : nat) (req : ChatRequest) : ChatOutcome * nat :=
  (ChatOk EmptyString, S w).

Definition document (title content : string) : Document :=
  {| doc_title := title; doc_content := content;
     doc_url := ("https://en.wikipedia.org/wiki/" ++ title)%string;
     doc_summary := ("About " ++ title)%string |}.

Definition inputs (query : string) (titles : list string)
    (documents : list Document) : Dict :=
  {| d_query := Some query; d_search_results := Some titles;
     d_documents := Some documents; d_answer := Some EmptyString;
     d_sources := Some []; d_error := Some EmptyString |}.

(** A search that is down, and one that finds the term ambiguous. *)
Definition search_down (w : nat) (term : string) (n : Z)
    : SearchOutcome * nat :=
  (SearchFault "HTTP request timed out.", S w).

Definition search_ambiguous (w : nat) (term : string) (n : Z)
    : SearchOutcome * nat :=
  (SearchDisambiguation catalogue, S w).

(** A page service that knows no title, and one that knows every title. *)
Definition page_down (w : nat) (title : string) : PageOutcome * nat :=
  (PageError, S w).


End Demo.

(** ** The pipeline, over arbitrary providers *)

Section Pipeline.

(** The state of the outside world and the three services.  A provider
    may answer the same request differently on every call. *)
Variable World : Type.
Variable search_provider : World -> string -> Z -> SearchOutcome * World.
Variable page_provider : World -> string -> PageOutcome * World.
Variable chat_provider : World -> ChatRequest -> ChatOutcome * World.

(** A computation reads and changes the world and emits the calls it made,
    in order. *)
Definition M (A : Type) : Type := World -> A * World * list Event.

Definition ret {A : Type} (a : A) : M A := fun w => (a, w, []).

Definition bind {A B : Type} (m : M A) (k : A -> M B) : M B :=
  fun w =>
    let '(a, w1, t1) := m w in
    let '(b, w2, t2) := k a w1 in
    (b, w2, t1 ++ t2).

Notation "x <- m ;; k" := (bind m (fun x => k))
  (at level 61, m at next level, right associativity).

Definition value {A : Type} (r : A * World * list Event) : A :=
  fst (fst r).
Definition world_after {A : Type} (r : A * World * list Event) : World :=
  snd (fst r).
Definition calls {A : Type} (r : A * World * list Event) : list Event :=
  snd r.

(** [wikipedia.search(term, results=n)]. *)
Definition wikipedia_search (term : string) (results : Z) : M SearchOutcome :=
  fun w =>
    let '(out, w') := search_provider w term results in
    (out, w', [EvSearch term results out]).

(** [wikipedia.page(title)] with its content, url and summary read. *)
Definition wikipedia_page (title : string) : M PageOutcome :=
  fun w =>
    let '(out, w') := page_provider w title in
    (out, w', [EvPage title out]).

(** [self.client.chat.completions.create(...)]. *)
Definition chat_completions_create (req : ChatRequest) : M ChatOutcome :=
  fun w =>
    let '(out, w') := chat_provider w req in
    (out, w', [EvChat req out]).

(** *** [WikipediaSearchNode] *)

(** [query.split()[0] if query.split() else query]. *)
Definition simplified_query (query : string) : string :=
  match py_split query with
  | tok :: _ => tok
  | [] => query
  end.

(** The [try] block of the node: the value of [results], or the exception
    that left the block. *)
Definition search_try (max_results : Z) (query : string) : M SearchOutcome :=
  r <- wikipedia_search query max_results ;;
  match r with
  | SearchOk [] => wikipedia_search (simplified_query query) max_results
  | _ => ret r
  end.

Definition WikipediaSearchNode (max_results : Z) (inputs : Dict) : M Dict :=
  let query := get_query inputs in
  if str_is_empty query then
    ret {| d_query := None; d_search_results := Some [];
           d_documents := None; d_answer := None; d_sources := None;
           d_error := Some no_query_text |}
  else
    r <- search_try max_results query ;;
    match r with
    | SearchOk results =>
        ret {| d_query := Some query; d_search_results := Some results;
               d_documents := None; d_answer := None; d_sources := None;
               d_error := None |}
    | SearchDisambiguation options =>
        ret {| d_query := Some query;
               d_search_results := Some (py_list_upto max_results options);
               d_documents := None; d_answer := None; d_sources := None;
               d_error := None |}
    | SearchFault msg =>
        ret {| d_query := Some query; d_search_results := Some [];
               d_documents := None; d_answer := None; d_sources := None;
               d_error := Some msg |}
    end.

(** *** [WikipediaSummaryNode] *)

(** [page.summary[:500] if page.summary else ""]. *)
Definition summary_of (page : Page) : string :=
  match page_summary page with
  | Some s => if str_is_empty s then EmptyString else py_str_upto 500 s
  | None => EmptyString
  end.

(** The dictionary appended to [documents], in either branch. *)
Definition build_document (max_content_length : Z) (title : string)
    (page : Page) : Document :=
  let content := py_str_upto max_content_length (page_content page) in
  let content :=
    if str_len (page_content page) >? max_content_length
    then (content ++ truncation_marker)%string else content in
  {| doc_title := title; doc_content := content;
     doc_url := page_url page; doc_summary := summary_of page |}.

(** The [for title in search_results] loop; [documents] is the list built
    so far. *)
Fixpoint fetch_loop (max_content_length : Z) (titles : list string)
    (documents : list Document) : M (list Document) :=
  match titles with
  | [] => ret documents
  | title :: rest =>
      r <- wikipedia_page title ;;
      match r with
      | PageOk page =>
          fetch_loop max_content_length rest
            (documents ++ [build_document max_content_length title page])
      | PageDisambiguation options =>
          match options with
          | [] => fetch_loop max_content_length rest documents
          | first :: _ =>
              r2 <- wikipedia_page first ;;
              match r2 with
              | PageOk page =>
                  fetch_loop max_content_length rest
                    (documents
                       ++ [build_document max_content_length first page])
              | _ => fetch_loop max_content_length rest documents
              end
          end
      | PageError => fetch_loop max_content_length rest documents
      | PageFault _ => fetch_loop max_content_length rest documents
      end
  end.

Definition WikipediaSummaryNode (max_content_length : Z) (inputs : Dict)
    : M Dict :=
  let search_results := get_search_results inputs in
  let query := get_query inputs in
  match search_results with
  | [] =>
      ret {| d_query := Some query; d_search_results := None;
             d_documents := Some []; d_answer := None; d_sources := None;
             d_error := Some no_results_text |}
  | _ =>
      documents <- fetch_loop max_content_length search_results [] ;;
      ret {| d_query := Some query; d_search_results := None;
             d_documents := Some documents; d_answer := None;
             d_sources := None; d_error := None |}
  end.

(** *** [GPTSummarizerNode] *)

Definition context_part (doc : Document) : string :=
  ("**" ++ doc_title doc ++ "**:" ++ nl ++ doc_content doc)%string.

Definition source_of (doc : Document) : Source :=
  {| src_title := doc_title doc; src_url := doc_url doc;
     src_summary := doc_summary doc |}.

(** The [for doc in documents] loop over both accumulators. *)
Fixpoint collect (documents : list Document)
    (context_parts : list string) (sources : list Source)
    : list string * list Source :=
  match documents with
  | [] => (context_parts, sources)
  | doc :: rest =>
      collect rest (context_parts ++ [context_part doc])
        (sources ++ [source_of doc])
  end.

Definition make_prompt (query context : string) : string :=
  ("You are a knowledgeable Wikipedia research assistant. Answer the user's question based ONLY on the provided Wikipedia content. " ++ nl
  ++ nl
  ++ "Guidelines:" ++ nl
  ++ "- Provide a comprehensive but concise answer" ++ nl
  ++ "- Use information from multiple sources when relevant" ++ nl
  ++ "- If the information is insufficient, acknowledge the limitations" ++ nl
  ++ "- Structure your response clearly with proper formatting" ++ nl
  ++ "- Include specific details and examples when available" ++ nl
  ++ nl
  ++ "User Question: " ++ query ++ nl
  ++ nl
  ++ "Wikipedia Content:" ++ nl
  ++ context ++ nl
  ++ nl
  ++ "Please provide a detailed answer based on the above information:")%string.

Definition chat_request (prompt : string) : ChatRequest :=
  {| chat_model := "gpt-3.5-turbo"; chat_prompt := prompt;
     chat_temperature := (3 # 10)%Q; chat_max_tokens := 1000 |}.

Definition GPTSummarizerNode (inputs : Dict) : M Dict :=
  let query := get_query inputs in
  let documents := get_documents inputs in
  if str_is_empty query then
    ret {| d_query := None; d_search_results := None; d_documents := None;
           d_answer := Some no_query_text; d_sources := Some [];
           d_error := None |}
  else
    match documents with
    | [] =>
        ret {| d_query := None; d_search_results := None;
               d_documents := None; d_answer := Some apology_text;
               d_sources := Some []; d_error := None |}
    | _ =>
        let '(context_parts, sources) := collect documents [] [] in
        let context := py_join (nl ++ nl)%string context_parts in
        let prompt := make_prompt query context in
        r <- chat_completions_create (chat_request prompt) ;;
        match r with
        | ChatOk answer =>
            ret {| d_query := Some query; d_search_results := None;
                   d_documents := None; d_answer := Some answer;
                   d_sources := Some sources; d_error := None |}
        | ChatFault msg =>
            ret {| d_query := Some query; d_search_results := None;
                   d_documents := None;
                   d_answer := Some (gpt_error_prefix ++ msg)%string;
                   d_sources := Some sources; d_error := None |}
        end
    end.

(** *** [WikipediaResearchWorkflow] *)

Definition initial_state (query : string) : ResearchState :=
  {| d_query := Some query; d_search_results := Some [];
     d_documents := Some []; d_answer := Some EmptyString;
     d_sources := Some []; d_error := Some EmptyString |}.

(** [self.workflow.invoke]: START, search, summarize, generate_answer, END.
    Each node sees the whole state and its update is merged into it.  The
    nodes catch every exception of a provider themselves, so the run
    returns. *)
Definition workflow_invoke (max_results max_content_length : Z)
    (state : ResearchState) : M (Outcome ResearchState) :=
  u1 <- WikipediaSearchNode max_results state ;;
  let s1 := merge state u1 in
  u2 <- WikipediaSummaryNode max_content_length s1 ;;
  let s2 := merge s1 u2 in
  u3 <- GPTSummarizerNode s2 ;;
  ret (Returned (merge s2 u3)).

(** The [try]/[except] of [research] around the run. *)
Definition research_result (query : string) (r : Outcome ResearchState)
    : ResearchState :=
  match r with
  | Returned result => result
  | Raised msg =>
      {| d_query := Some query; d_search_results := Some [];
         d_documents := Some [];
         d_answer := Some (research_error_prefix ++ msg)%string;
         d_sources := Some []; d_error := Some msg |}
  end.

Definition research (max_results max_content_length : Z) (query : string)
    : M ResearchState :=
  r <- workflow_invoke max_results max_content_length
         (initial_state query) ;;
  ret (research_result query r).

(** The dictionary the search node returns for what its [try] block
    gave: the [return] of the block and of the two handlers. *)
Definition search_reply (max_results : Z) (query : string)
    (r : SearchOutcome) : Dict :=
  match r with
  | SearchOk results =>
      {| d_query := Some query; d_search_results := Some results;
         d_documents := None; d_answer := None; d_sources := None;
         d_error := None |}
  | SearchDisambiguation options =>
      {| d_query := Some query;
         d_search_results := Some (py_list_upto max_results options);
         d_documents := None; d_answer := None; d_sources := None;
         d_error := None |}
  | SearchFault msg =>
      {| d_query := Some query; d_search_results := Some [];
         d_documents := None; d_answer := None; d_sources := None;
         d_error := Some msg |}
  end.

(** The text under [error] once the fetch node has run. *)
Definition error_after_fetch (titles : list string) : string :=
  match titles with
  | [] => no_results_text
  | _ => EmptyString
  end.

(** *** The request handling of [app.py]

    The branch of [main] that runs once the widgets are read:
    [search_button] and [query] are what the button and the text input
    returned.  The progress display and the export buttons are left out;
    [research] returns a dictionary with its six keys, so [if result]
    holds. *)
Definition process_search_request (max_results max_content_length : Z)
    (search_button : bool) (query : string) (st : SessionState)
    : M (SessionState * list Widget) :=
  if search_button && negb (str_is_empty (py_strip query)) then
    let st := set_current_query query st in
    result <- research max_results max_content_length query ;;
    let st := add_to_history query result st in
    ret (st, display_research_results result)
  else if search_button && str_is_empty (py_strip query) then
    ret (st, [BlankQueryWarning])
  else ret (st, []).

(** *** The fetch stage, one title at a time

    What the specification asks of the fetch stage: every title gives,
    independently of the others, one document or none, and the results
    are collected in order.  [fetch_loop] is compared with it below. *)

Definition fetch_one_spec (max_content_length : Z) (title : string)
    : M (option Document) :=
  r <- wikipedia_page title ;;
  match r with
  | PageOk page => ret (Some (build_document max_content_length title page))
  | PageDisambiguation (first :: _) =>
      r2 <- wikipedia_page first ;;
      match r2 with
      | PageOk page =>
          ret (Some (build_document max_content_length first page))
      | _ => ret None
      end
  | _ => ret None
  end.

Fixpoint fetch_each_spec (max_content_length : Z) (titles : list string)
    : M (list (option Document)) :=
  match titles with
  | [] => ret []
  | title :: rest =>
      o <- fetch_one_spec max_content_length title ;;
      os <- fetch_each_spec max_content_length rest ;;
      ret (o :: os)
  end.

(** The documents among per-title results, in order. *)
Fixpoint fetched (os : list (option Document)) : list Document :=
  match os with
  | [] => []
  | Some d :: rest => d :: fetched rest
  | None :: rest => fetched rest
  end.

(** The request the synthesis node sends for a query and its documents. *)
Definition synthesis_request (query : string) (documents : list Document)
    : ChatRequest :=
  chat_request
    (make_prompt query
       (py_join (nl ++ nl)%string (map context_part documents))).

(** A search provider that never returns more titles than it was asked
    for. *)
Definition honours_limit : Prop :=
  forall (w w' : World) (term : string) (n : Z) (titles : list string),
    0 <= n ->
    search_provider w term n = (SearchOk titles, w') ->
    Z.of_nat (List.length titles) <= n.

(** ** Properties *)

(** *** Strings and slices *)

Lemma str_take_all (n : nat) (s : string) :
  (String.length s <= n)%nat -> str_take n s = s.
Proof.
  revert n; induction s as [|c s IH]; intros [|n] H; simpl in *;
    try reflexivity; try lia.
  f_equal. apply IH. lia.
Qed.

Lemma str_take_prefix (n : nat) (s : string) :
  (n <= String.length s)%nat ->
  exists rest, s = (str_take n s ++ rest)%string
               /\ String.length (str_take n s) = n.
Proof.
  revert s; induction n as [|n IH]; intros s H.
  - exists s. split; reflexivity.
  - destruct s as [|c s]; simpl in H; [lia|].
    destruct (IH s) as [rest [E L]]; [lia|].
    exists rest. simpl. split; [f_equal; exact E | f_equal; exact L].
Qed.

Lemma str_is_empty_true (s : string) :
  str_is_empty s = true <-> s = EmptyString.
Proof. destruct s; simpl; split; congruence. Qed.

Lemma str_is_empty_false (s : string) :
  str_is_empty s = false <-> s <> EmptyString.
Proof. destruct s; simpl; split; congruence. Qed.

Lemma py_list_upto_length {A : Type} (n : Z) (l : list A) :
  0 <= n -> Z.of_nat (List.length (py_list_upto n l)) <= n.
Proof.
  intros H. unfold py_list_upto.
  destruct (0 <=? n) eqn:E; [|apply Z.leb_gt in E; lia].
  rewrite length_firstn. lia.
Qed.

(** *** Splitting a query *)

Lemma str_app_nil_r (s : string) : (s ++ EmptyString)%string = s.
Proof. induction s as [|c s IH]; simpl; [|rewrite IH]; reflexivity. Qed.

Lemma str_app_assoc (a b c : string) :
  ((a ++ b) ++ c)%string = (a ++ b ++ c)%string.
Proof. induction a as [|x a IH]; simpl; [|rewrite IH]; reflexivity. Qed.

Lemma split_from_spaces (pre s : string) :
  all_space pre = true ->
  split_from (pre ++ s) EmptyString = split_from s EmptyString.
Proof.
  induction pre as [|c pre IH]; simpl; [reflexivity|].
  intros H. apply andb_prop in H as [Hc Hpre].
  rewrite Hc. simpl. exact (IH Hpre).
Qed.

Lemma split_from_token (tok rest : string) :
  no_space tok = true ->
  forall cur, split_from (tok ++ rest) cur = split_from rest (cur ++ tok).
Proof.
  induction tok as [|c tok IH]; simpl; intros H cur.
  - rewrite str_app_nil_r. reflexivity.
  - apply andb_prop in H as [Hc Htok].
    apply negb_true_iff in Hc. rewrite Hc.
    rewrite (IH Htok), str_app_assoc. reflexivity.
Qed.

Lemma py_split_all_space (s : string) :
  all_space s = true -> py_split s = [].
Proof.
  intros H. unfold py_split.
  rewrite <- (str_app_nil_r s), split_from_spaces by exact H. reflexivity.
Qed.

(** The first token: leading whitespace is skipped, and the token ends at
    the next whitespace character or at the end of the string. *)
Lemma py_split_first (pre tok rest : string) :
  all_space pre = true -> tok <> EmptyString -> no_space tok = true ->
  (rest = EmptyString
   \/ exists c rest', rest = String c rest' /\ isspace c = true) ->
  exists others, py_split (pre ++ tok ++ rest) = tok :: others.
Proof.
  intros Hpre Hne Htok Hrest. unfold py_split.
  rewrite split_from_spaces by exact Hpre.
  rewrite split_from_token by exact Htok. simpl.
  apply str_is_empty_false in Hne.
  destruct Hrest as [-> | [c [rest' [-> Hc]]]]; simpl.
  - rewrite Hne. exists []. reflexivity.
  - rewrite Hc, Hne. eexists. reflexivity.
Qed.

(** *** The document a page becomes *)

Lemma build_document_long (max : Z) (title : string) (page : Page) :
  0 <= max -> str_len (page_content page) > max ->
  exists prefix rest,
    page_content page = (prefix ++ rest)%string
    /\ str_len prefix = max
    /\ doc_content (build_document max title page)
       = (prefix ++ truncation_marker)%string.
Proof.
  intros Hmax Hlong. unfold build_document, py_str_upto, str_len in *. simpl.
  destruct (0 <=? max) eqn:E; [|apply Z.leb_gt in E; lia].
  destruct (Z.of_nat (String.length (page_content page)) >? max) eqn:G;
    [|rewrite Z.gtb_ltb in G; apply Z.ltb_ge in G; lia].
  destruct (str_take_prefix (Z.to_nat max) (page_content page))
    as [rest [Hs Hl]]; [lia|].
  exists (str_take (Z.to_nat max) (page_content page)), rest.
  split; [exact Hs|]. split; [rewrite Hl; lia | reflexivity].
Qed.

Lemma build_document_short (max : Z) (title : string) (page : Page) :
  str_len (page_content page) <= max ->
  doc_content (build_document max title page) = page_content page.
Proof.
  intros Hshort. unfold build_document, py_str_upto, str_len in *. simpl.
  assert (0 <= max) as Hmax by lia.
  destruct (0 <=? max) eqn:E; [|apply Z.leb_gt in E; lia].
  destruct (Z.of_nat (String.length (page_content page)) >? max) eqn:G;
    [rewrite Z.gtb_ltb in G; apply Z.ltb_lt in G; lia|].
  apply str_take_all. lia.
Qed.

(** *** The fetch loop against its per-title specification *)

Ltac run_page w title :=
  let out := fresh "out" in
  let w1 := fresh "w" in
  let E := fresh "Epage" in
  destruct (page_provider w title) as [out w1] eqn:E.

Lemma fetched_app (xs ys : list (option Document)) :
  fetched (xs ++ ys) = fetched xs ++ fetched ys.
Proof.
  induction xs as [|[d|] xs IH]; simpl; [reflexivity | f_equal; exact IH
                                         | exact IH].
Qed.

Lemma fetched_length (os : list (option Document)) :
  (List.length (fetched os) <= List.length os)%nat.
Proof. induction os as [|[d|] os IH]; simpl; lia. Qed.

Lemma fetched_In (d : Document) (os : list (option Document)) :
  In d (fetched os) <-> In (Some d) os.
Proof.
  induction os as [|[d'|] os IH]; simpl.
  - tauto.
  - rewrite IH. split; intros [H|H]; auto; left; congruence.
  - rewrite IH. split; [auto | intros [H|H]; [discriminate | exact H]].
Qed.

(** The loop adds to [documents] exactly the per-title results, in order,
    makes the same calls and leaves the same world. *)
Lemma fetch_loop_spec (max : Z) (titles : list string) :
  forall (documents : list Document) (w : World),
    fetch_loop max titles documents w =
    (documents ++ fetched (value (fetch_each_spec max titles w)),
     world_after (fetch_each_spec max titles w),
     calls (fetch_each_spec max titles w)).
Proof.
  induction titles as [|title rest IH]; intros documents w.
  - simpl. unfold ret, value, world_after, calls. simpl.
    rewrite app_nil_r. reflexivity.
  - simpl. unfold bind, fetch_one_spec, bind, wikipedia_page, ret.
    run_page w title.
    destruct out as [page | [|first others] | | msg]; simpl;
      try (rewrite IH;
           destruct (fetch_each_spec max rest w0) as [[os w2] t2];
           unfold value, world_after, calls; simpl;
           rewrite ?app_nil_r, <- ?app_assoc; reflexivity).
    run_page w0 first.
    destruct out as [page | opts | | msg]; simpl; rewrite IH;
      destruct (fetch_each_spec max rest w1) as [[os w2] t2];
      unfold value, world_after, calls; simpl;
      rewrite ?app_nil_r, <- ?app_assoc; reflexivity.
Qed.

Lemma fetch_each_spec_length (max : Z) (titles : list string) :
  forall w : World,
    List.length (value (fetch_each_spec max titles w)) = List.length titles.
Proof.
  induction titles as [|title rest IH]; intros w; [reflexivity|].
  simpl. unfold bind.
  destruct (fetch_one_spec max title w) as [[o w1] t1].
  specialize (IH w1).
  destruct (fetch_each_spec max rest w1) as [[os w2] t2].
  unfold value in *. simpl in *. f_equal. exact IH.
Qed.

(** A per-title result is the document of a page some call of this title
    returned. *)
Lemma fetch_one_spec_page (max : Z) (title : string) (w : World)
    (d : Document) :
  value (fetch_one_spec max title w) = Some d ->
  exists page,
    In (EvPage (doc_title d) (PageOk page))
       (calls (fetch_one_spec max title w))
    /\ d = build_document max (doc_title d) page.
Proof.
  unfold fetch_one_spec, bind, wikipedia_page, ret, value, calls.
  run_page w title.
  destruct out as [page | [|first others] | | msg]; simpl;
    try discriminate.
  - intros H; injection H as <-. exists page. simpl. auto.
  - run_page w0 first.
    destruct out as [page | opts | | msg]; simpl; try discriminate.
    intros H; injection H as <-. exists page. simpl. auto.
Qed.

Lemma fetch_each_spec_page (max : Z) (titles : list string) :
  forall (w : World) (d : Document),
    In (Some d) (value (fetch_each_spec max titles w)) ->
    exists page,
      In (EvPage (doc_title d) (PageOk page))
         (calls (fetch_each_spec max titles w))
      /\ d = build_document max (doc_title d) page.
Proof.
  induction titles as [|title rest IH]; intros w d; [intros []|].
  simpl. unfold bind.
  pose proof (fetch_one_spec_page max title w d) as H1.
  destruct (fetch_one_spec max title w) as [[o w1] t1].
  specialize (IH w1 d).
  destruct (fetch_each_spec max rest w1) as [[os w2] t2].
  unfold value, calls, ret in *. simpl in *.
  intros [H|H].
  - destruct (H1 H) as [page [Hin Hd]]. exists page.
    split; [apply in_or_app; left; exact Hin | exact Hd].
  - destruct (IH H) as [page [Hin Hd]]. exists page.
    split; [apply in_or_app; right; rewrite app_nil_r; exact Hin | exact Hd].
Qed.

(** *** What each node returns *)

(** The summary node stores the per-title results of its input titles. *)
Lemma summary_node_run (max : Z) (inputs : Dict) (w : World) :
  let spec := fetch_each_spec max (get_search_results inputs) w in
  WikipediaSummaryNode max inputs w
  = ({| d_query := Some (get_query inputs); d_search_results := None;
        d_documents := Some (fetched (value spec)); d_answer := None;
        d_sources := None;
        d_error := match get_search_results inputs with
                   | [] => Some no_results_text
                   | _ => None
                   end |},
     world_after spec, calls spec).
Proof.
  cbv zeta. unfold WikipediaSummaryNode.
  destruct (get_search_results inputs) as [|title rest] eqn:E.
  - reflexivity.
  - unfold bind. rewrite fetch_loop_spec.
    destruct (fetch_each_spec max (title :: rest) w) as [[os w'] t].
    unfold ret, value, world_after, calls. simpl.
    rewrite app_nil_r. reflexivity.
Qed.

Lemma search_node_results (max_results : Z) (inputs : Dict) (w : World) :
  0 <= max_results -> honours_limit ->
  exists titles,
    d_search_results (value (WikipediaSearchNode max_results inputs w))
      = Some titles
    /\ Z.of_nat (List.length titles) <= max_results
    /\ d_documents (value (WikipediaSearchNode max_results inputs w)) = None.
Proof.
  intros Hmax Hlim. unfold WikipediaSearchNode.
  destruct (str_is_empty (get_query inputs)).
  - exists []. unfold ret, value. simpl. repeat split; lia.
  - unfold bind at 1. unfold search_try, bind, wikipedia_search, ret.
    destruct (search_provider w (get_query inputs) max_results)
      as [out w1] eqn:E1.
    destruct out as [[|t ts] | options | msg].
    + destruct (search_provider w1 (simplified_query (get_query inputs))
                  max_results) as [out2 w2] eqn:E2.
      destruct out2 as [titles | options | msg]; unfold value; simpl.
      * exists titles. repeat split. exact (Hlim _ _ _ _ _ Hmax E2).
      * exists (py_list_upto max_results options). repeat split.
        apply py_list_upto_length; exact Hmax.
      * exists []. repeat split. simpl; lia.
    + exists (t :: ts). unfold value; simpl. repeat split.
      exact (Hlim _ _ _ _ _ Hmax E1).
    + exists (py_list_upto max_results options). unfold value; simpl.
      repeat split. apply py_list_upto_length; exact Hmax.
    + exists []. unfold value; simpl. repeat split. simpl; lia.
Qed.

Lemma collect_map (documents : list Document) :
  forall (parts : list string) (sources : list Source),
    collect documents parts sources
    = (parts ++ map context_part documents,
       sources ++ map source_of documents).
Proof.
  induction documents as [|doc rest IH]; intros parts sources; simpl.
  - rewrite !app_nil_r. reflexivity.
  - rewrite IH, <- !app_assoc. reflexivity.
Qed.

(** The node, case by case. *)
Lemma gpt_node_run (inputs : Dict) (w : World) :
  let query := get_query inputs in
  let documents := get_documents inputs in
  let r := GPTSummarizerNode inputs w in
  d_search_results (value r) = None /\ d_documents (value r) = None
  /\ ((query = EmptyString
       /\ r = (mkDict None None None (Some no_query_text) (Some []) None,
               w, []))
      \/ (query <> EmptyString /\ documents = []
          /\ r = (mkDict None None None (Some apology_text) (Some []) None,
                  w, []))
      \/ (query <> EmptyString /\ documents <> []
          /\ exists out w',
               chat_provider w (synthesis_request query documents)
                 = (out, w')
               /\ world_after r = w'
               /\ calls r = [EvChat (synthesis_request query documents) out]
               /\ value r =
                  mkDict (Some query) None None
                    (Some match out with
                          | ChatOk answer => answer
                          | ChatFault msg => (gpt_error_prefix ++ msg)%string
                          end)
                    (Some (map source_of documents)) None)).
Proof.
  cbv zeta. unfold GPTSummarizerNode.
  destruct (str_is_empty (get_query inputs)) eqn:Eq.
  - apply str_is_empty_true in Eq.
    split; [reflexivity|]. split; [reflexivity|].
    left. split; [exact Eq | reflexivity].
  - apply str_is_empty_false in Eq.
    destruct (get_documents inputs) as [|doc rest] eqn:Ed.
    + split; [reflexivity|]. split; [reflexivity|].
      right; left. split; [exact Eq|]. split; reflexivity.
    + rewrite collect_map. simpl app.
      unfold bind, chat_completions_create, synthesis_request.
      destruct (chat_provider w _) as [out w'] eqn:Ec.
      destruct out as [answer | msg]; unfold ret, value, world_after, calls;
        simpl; (split; [reflexivity|]); (split; [reflexivity|]);
        right; right; (split; [exact Eq|]); (split; [discriminate|]);
        eexists; eexists; repeat split; reflexivity.
Qed.

(** The run of [research], stage by stage. *)
Lemma research_run (max_results max_content_length : Z) (query : string)
    (w : World) :
  let s0 := initial_state query in
  let r1 := WikipediaSearchNode max_results s0 w in
  let s1 := merge s0 (value r1) in
  let r2 := WikipediaSummaryNode max_content_length s1 (world_after r1) in
  let s2 := merge s1 (value r2) in
  let r3 := GPTSummarizerNode s2 (world_after r2) in
  research max_results max_content_length query w
  = (merge s2 (value r3), world_after r3, calls r1 ++ calls r2 ++ calls r3).
Proof.
  cbv zeta. unfold research, workflow_invoke, bind, value, world_after, calls.
  destruct (WikipediaSearchNode max_results (initial_state query) w)
    as [[u1 w1] t1]. simpl fst; simpl snd.
  destruct (WikipediaSummaryNode max_content_length
              (merge (initial_state query) u1) w1) as [[u2 w2] t2].
  simpl fst; simpl snd.
  destruct (GPTSummarizerNode
              (merge (merge (initial_state query) u1) u2) w2)
    as [[u3 w3] t3].
  unfold ret. simpl.
  rewrite ?app_nil_r, <- ?app_assoc. reflexivity.
Qed.

Lemma fetch_each_spec_app (max : Z) (xs ys : list string) :
  forall w : World,
    fetch_each_spec max (xs ++ ys) w
    = (value (fetch_each_spec max xs w)
         ++ value (fetch_each_spec max ys
                     (world_after (fetch_each_spec max xs w))),
       world_after (fetch_each_spec max ys
                      (world_after (fetch_each_spec max xs w))),
       calls (fetch_each_spec max xs w)
         ++ calls (fetch_each_spec max ys
                     (world_after (fetch_each_spec max xs w)))).
Proof.
  induction xs as [|x xs IH]; intros w.
  - simpl. unfold ret, value, world_after, calls. simpl.
    destruct (fetch_each_spec max ys w) as [[os w'] t]. reflexivity.
  - simpl. unfold bind.
    destruct (fetch_one_spec max x w) as [[o w1] t1].
    rewrite IH.
    destruct (fetch_each_spec max xs w1) as [[os w2] t2].
    unfold value, world_after, calls. simpl.
    destruct (fetch_each_spec max ys w2) as [[os' w3] t3].
    unfold ret. simpl. rewrite !app_nil_r, <- app_assoc. reflexivity.
Qed.

Lemma fetch_each_spec_app_value (max : Z) (xs ys : list string)
    (w : World) :
  value (fetch_each_spec max (xs ++ ys) w)
  = value (fetch_each_spec max xs w)
      ++ value (fetch_each_spec max ys
                  (world_after (fetch_each_spec max xs w))).
Proof. rewrite fetch_each_spec_app. reflexivity. Qed.

Lemma summary_node_documents (max : Z) (inputs : Dict) (w : World) :
  get_documents (value (WikipediaSummaryNode max inputs w))
  = fetched (value (fetch_each_spec max (get_search_results inputs) w)).
Proof. rewrite summary_node_run. reflexivity. Qed.

Lemma fetch_each_spec_disambiguation (max : Z) (title first : string)
    (others after : list string) (w0 w1 : World) :
  page_provider w0 title = (PageDisambiguation (first :: others), w1) ->
  value (fetch_each_spec max (title :: after) w0)
  = match fst (page_provider w1 first) with
    | PageOk page => Some (build_document max first page)
    | _ => None
    end
    :: value (fetch_each_spec max after (snd (page_provider w1 first))).
Proof.
  intros Hdis. simpl. unfold bind, fetch_one_spec, bind, wikipedia_page.
  rewrite Hdis.
  destruct (page_provider w1 first) as [out w2]. simpl fst; simpl snd.
  destruct out as [page | opts | | msg]; unfold ret; simpl;
    destruct (fetch_each_spec max after w2) as [[os w3] t3];
    reflexivity.
Qed.

(** *** Claims about the pipeline *)

(** C2.  Every document the fetch stage stores comes from a page that a
    call for the document's title returned.  When the page content is
    strictly longer than [max_content_length], the stored body is the
    first [max_content_length] characters of the content followed by the
    truncation marker; when it is at most [max_content_length] long, the
    stored body is the content itself, without marker. *)
Theorem stored_body_truncated (max_content_length : Z) (inputs : Dict)
    (w : World) (d : Document) :
  0 <= max_content_length ->
  In d (get_documents
          (value (WikipediaSummaryNode max_content_length inputs w))) ->
  exists page,
    In (EvPage (doc_title d) (PageOk page))
       (calls (WikipediaSummaryNode max_content_length inputs w))
    /\ (str_len (page_content page) > max_content_length ->
        exists prefix rest,
          page_content page = (prefix ++ rest)%string
          /\ str_len prefix = max_content_length
          /\ doc_content d = (prefix ++ "... [Content truncated]")%string)
    /\ (str_len (page_content page) <= max_content_length ->
        doc_content d = page_content page).
Proof.
  intros Hmax. rewrite summary_node_run. cbv zeta.
  unfold value at 1, calls at 1, get_documents. simpl.
  intros Hin. apply fetched_In in Hin.
  destruct (fetch_each_spec_page _ _ _ _ Hin) as [page [Hcall Hd]].
  exists page. split; [exact Hcall|]. split.
  - intros Hlong. rewrite Hd.
    exact (build_document_long _ _ _ Hmax Hlong).
  - intros Hshort. rewrite Hd.
    exact (build_document_short _ _ _ Hshort).
Qed.

(** C4.  With a non-empty query and no documents, the synthesis node
    returns the fixed apology with an empty [sources] list, makes no call
    and leaves the world as it was. *)
Theorem no_documents_apology (inputs : Dict) (w : World) :
  get_query inputs <> EmptyString ->
  get_documents inputs = [] ->
  GPTSummarizerNode inputs w
  = ({| d_query := None; d_search_results := None; d_documents := None;
        d_answer :=
          Some "I couldn't find any relevant Wikipedia articles for your query. Please try rephrasing your question or using different keywords.";
        d_sources := Some []; d_error := None |},
     w, []).
Proof.
  intros Hq Hd.
  destruct (gpt_node_run inputs w) as [_ [_ [[E _] | [[_ [_ E]] | [_ [E _]]]]]].
  - contradiction.
  - exact E.
  - contradiction.
Qed.

(** C5.  With a non-empty query and at least one document, when the
    generation call of the node raises with message [msg], the node
    returns: its answer is the fixed prefix followed by [msg], its
    [sources] are the projections [{title, url, summary}] of the input
    documents, one per document and in their order, and [query] is passed
    on. *)
Theorem generation_fault_keeps_sources (inputs : Dict) (w : World)
    (req : ChatRequest) (msg : string) :
  get_query inputs <> EmptyString ->
  get_documents inputs <> [] ->
  In (EvChat req (ChatFault msg)) (calls (GPTSummarizerNode inputs w)) ->
  value (GPTSummarizerNode inputs w)
  = {| d_query := Some (get_query inputs); d_search_results := None;
       d_documents := None;
       d_answer :=
         Some ("I encountered an error while processing your request: "
               ++ msg)%string;
       d_sources :=
         Some (map (fun doc =>
                      {| src_title := doc_title doc; src_url := doc_url doc;
                         src_summary := doc_summary doc |})
                 (get_documents inputs));
       d_error := None |}.
Proof.
  intros Hq Hd Hcall.
  destruct (gpt_node_run inputs w)
    as [_ [_ [[E _] | [[_ [E _]] | [_ [_ [out [w' [_ [_ [Hc Hv]]]]]]]]]]].
  - contradiction.
  - contradiction.
  - rewrite Hc in Hcall. destruct Hcall as [Hcall | []].
    injection Hcall as _ ->. exact Hv.
Qed.

(** C3 (amended).  With the empty query no provider is called at any
    stage and every stage reports it: the search node returns
    [{search_results: [], error: "No query provided"}]; the fetch node,
    on the state this leaves, returns no documents and the error
    ["No search results to process"]; the synthesis node answers
    ["No query provided"] with no sources; and the run of [research]
    ends in a state with these fields, the world untouched. *)
Theorem empty_query_no_calls (max_results max_content_length : Z)
    (inputs : Dict) (w : World) :
  get_query inputs = EmptyString ->
  WikipediaSearchNode max_results inputs w
  = ({| d_query := None; d_search_results := Some []; d_documents := None;
        d_answer := None; d_sources := None;
        d_error := Some "No query provided" |}, w, [])
  /\ WikipediaSummaryNode max_content_length
       (merge inputs (value (WikipediaSearchNode max_results inputs w))) w
     = ({| d_query := Some EmptyString; d_search_results := None;
           d_documents := Some []; d_answer := None; d_sources := None;
           d_error := Some "No search results to process" |}, w, [])
  /\ GPTSummarizerNode inputs w
     = ({| d_query := None; d_search_results := None; d_documents := None;
           d_answer := Some "No query provided"; d_sources := Some [];
           d_error := None |}, w, [])
  /\ research max_results max_content_length EmptyString w
     = ({| d_query := Some EmptyString; d_search_results := Some [];
           d_documents := Some []; d_answer := Some "No query provided";
           d_sources := Some [];
           d_error := Some "No search results to process" |}, w, []).
Proof.
  intros Hq.
  assert (WikipediaSearchNode max_results inputs w
          = ({| d_query := None; d_search_results := Some [];
                d_documents := None; d_answer := None; d_sources := None;
                d_error := Some "No query provided" |}, w, [])) as Hsearch.
  { unfold WikipediaSearchNode. rewrite Hq. reflexivity. }
  split; [exact Hsearch|]. split; [|split].
  - rewrite Hsearch. unfold WikipediaSummaryNode, value, merge,
      get_search_results, get_query in *. simpl.
    destruct (d_query inputs) as [q|]; simpl in *; [subst q|]; reflexivity.
  - unfold GPTSummarizerNode. rewrite Hq. reflexivity.
  - reflexivity.
Qed.

(** C6 (amended).  The state [research] returns always has an [answer],
    and the answer is the empty text only when the generation provider
    returned the empty text in this run; the state the driver builds
    from an escaped exception has a non-empty answer as well. *)
Theorem answer_empty_only_if_generated_empty
    (max_results max_content_length : Z) (query : string) (w : World) :
  let r := research max_results max_content_length query w in
  (exists answer,
     d_answer (value r) = Some answer
     /\ (answer = EmptyString ->
         exists req, In (EvChat req (ChatOk EmptyString)) (calls r)))
  /\ forall msg,
       get_answer (research_result query (Raised msg)) <> EmptyString.
Proof.
  cbv zeta. split; [|intros msg; simpl; discriminate].
  rewrite research_run. cbv zeta.
  match goal with
  | |- context [GPTSummarizerNode ?s ?w'] =>
      destruct (gpt_node_run s w')
        as [_ [_ [[_ E] | [[_ [_ E]] | [_ [_ [out [w3 [_ [_ [Hc Hv]]]]]]]]]]];
      set (s2 := s) in *; set (w2 := w') in *
  end.
  - rewrite E. unfold value, calls. simpl.
    eexists; split; [reflexivity | discriminate].
  - rewrite E. unfold value, calls. simpl.
    eexists; split; [reflexivity | discriminate].
  - unfold value at 1, calls at 1. simpl fst. simpl snd.
    rewrite Hc, Hv. simpl.
    eexists; split; [reflexivity|].
    destruct out as [answer | msg]; [|discriminate].
    intros ->. eexists. apply in_or_app; right. apply in_or_app; right.
    left. reflexivity.
Qed.

(** C7 (amended).  For a non-empty query whose search returns no title,
    the search node calls the provider exactly once more, with the same
    limit and with the first whitespace-delimited token of the query, or
    with the query itself when it is all whitespace and has no token.
    When this retry returns a list of titles, empty or not, the node
    returns that list and the query, with no [error] key. *)
Theorem zero_results_retry (max_results : Z) (inputs : Dict)
    (w w1 : World) :
  let query := get_query inputs in
  query <> EmptyString ->
  search_provider w query max_results = (SearchOk [], w1) ->
  let term := simplified_query query in
  let retry := fst (search_provider w1 term max_results) in
  calls (WikipediaSearchNode max_results inputs w)
  = [EvSearch query max_results (SearchOk []);
     EvSearch term max_results retry]
  /\ (forall titles,
        retry = SearchOk titles ->
        value (WikipediaSearchNode max_results inputs w)
        = {| d_query := Some query; d_search_results := Some titles;
             d_documents := None; d_answer := None; d_sources := None;
             d_error := None |})
  /\ (forall pre tok rest,
        query = (pre ++ tok ++ rest)%string ->
        all_space pre = true -> tok <> EmptyString -> no_space tok = true ->
        (rest = EmptyString
         \/ exists c rest', rest = String c rest' /\ isspace c = true) ->
        term = tok)
  /\ (all_space query = true -> term = query).
Proof.
  cbv zeta. intros Hq Hfirst.
  apply str_is_empty_false in Hq.
  unfold WikipediaSearchNode. rewrite Hq.
  unfold bind at 1 2, search_try, bind, wikipedia_search. rewrite Hfirst.
  destruct (search_provider w1 (simplified_query (get_query inputs))
              max_results) as [out2 w2] eqn:E2.
  simpl fst. split; [|split; [|split]].
  - destruct out2; reflexivity.
  - intros titles ->. reflexivity.
  - intros pre tok rest Hsplit Hpre Hne Htok Hrest.
    unfold simplified_query. rewrite Hsplit.
    destruct (py_split_first pre tok rest Hpre Hne Htok Hrest) as [o ->].
    reflexivity.
  - intros Hall. unfold simplified_query.
    rewrite py_split_all_space by exact Hall. reflexivity.
Qed.

(** C8 (amended).  For a non-empty query and a non-empty list of
    documents, the [sources] the synthesis node returns are the
    projections [{title, url, summary}] of the documents, one per document
    and in their order, whatever the generation call does.  The documents
    the fetch node returns are the per-title results of its titles, one
    result per title and at most one document per result, in the order of
    the titles. *)
Theorem sources_follow_documents (max_content_length : Z)
    (inputs fetch_inputs : Dict) (w w' : World) :
  get_query inputs <> EmptyString ->
  get_documents inputs <> [] ->
  d_sources (value (GPTSummarizerNode inputs w))
  = Some (map (fun doc =>
                 {| src_title := doc_title doc; src_url := doc_url doc;
                    src_summary := doc_summary doc |})
            (get_documents inputs))
  /\ (let results :=
        value (fetch_each_spec max_content_length
                 (get_search_results fetch_inputs) w') in
      get_documents
        (value (WikipediaSummaryNode max_content_length fetch_inputs w'))
      = fetched results
      /\ List.length results
         = List.length (get_search_results fetch_inputs)).
Proof.
  intros Hq Hd. split.
  - destruct (gpt_node_run inputs w)
      as [_ [_ [[E _] | [[_ [E _]] | [_ [_ [out [w3 [_ [_ [_ Hv]]]]]]]]]]];
      try contradiction.
    rewrite Hv. reflexivity.
  - cbv zeta. split.
    + apply summary_node_documents.
    + apply fetch_each_spec_length.
Qed.

(** C10.  Let [title] stand anywhere in the titles given to the fetch
    node, and let its fetch raise a disambiguation whose first option is
    [first].  If the fetch of [first] succeeds, the node returns, between
    the documents of the earlier and of the later titles, one document
    built from that page whose title is [first], not [title].  If the
    fetch of [first] does anything else, the node returns the documents
    of the earlier titles followed by those of the later ones: [title]
    contributes none. *)
Theorem disambiguation_uses_first_option (max_content_length : Z)
    (inputs : Dict) (before after others : list string)
    (title first : string) (w w1 : World) :
  get_search_results inputs = before ++ title :: after ->
  let earlier := fetch_each_spec max_content_length before w in
  page_provider (world_after earlier) title
    = (PageDisambiguation (first :: others), w1) ->
  let out := fst (page_provider w1 first) in
  let later :=
    fetch_each_spec max_content_length after
      (snd (page_provider w1 first)) in
  let documents :=
    get_documents
      (value (WikipediaSummaryNode max_content_length inputs w)) in
  (forall page,
     out = PageOk page ->
     exists d,
       d = build_document max_content_length first page
       /\ doc_title d = first
       /\ documents = fetched (value earlier) ++ d :: fetched (value later))
  /\ ((forall page, out <> PageOk page) ->
      documents = fetched (value earlier) ++ fetched (value later)).
Proof.
  intros Hres. cbv zeta. intros Hdis.
  rewrite summary_node_documents, Hres, fetch_each_spec_app_value.
  rewrite fetched_app.
  rewrite (fetch_each_spec_disambiguation _ _ _ _ _ _ _ Hdis).
  split.
  - intros page ->. eexists. split; [reflexivity|].
    split; reflexivity.
  - intros Hfail. f_equal.
    destruct (fst (page_provider w1 first)) as [page | opts | | msg];
      [exfalso; exact (Hfail page eq_refl) | | |]; reflexivity.
Qed.

(** *** More on the search node *)

(** The three ways a run of the search node can go. *)
Lemma search_node_run (max_results : Z) (inputs : Dict) (w : World) :
  let query := get_query inputs in
  let r := WikipediaSearchNode max_results inputs w in
  (query = EmptyString
   /\ r = ({| d_query := None; d_search_results := Some [];
              d_documents := None; d_answer := None; d_sources := None;
              d_error := Some no_query_text |}, w, []))
  \/ (query <> EmptyString
      /\ exists out w1,
           search_provider w query max_results = (out, w1)
           /\ out <> SearchOk []
           /\ r = (search_reply max_results query out, w1,
                   [EvSearch query max_results out]))
  \/ (query <> EmptyString
      /\ exists w1 out2 w2,
           search_provider w query max_results = (SearchOk [], w1)
           /\ search_provider w1 (simplified_query query) max_results
              = (out2, w2)
           /\ r = (search_reply max_results query out2, w2,
                   [EvSearch query max_results (SearchOk []);
                    EvSearch (simplified_query query) max_results out2])).
Proof.
  cbv zeta. unfold WikipediaSearchNode.
  destruct (str_is_empty (get_query inputs)) eqn:Eq.
  - left. apply str_is_empty_true in Eq. split; [exact Eq | reflexivity].
  - right. apply str_is_empty_false in Eq.
    unfold bind at 1. unfold search_try, bind, wikipedia_search.
    destruct (search_provider w (get_query inputs) max_results)
      as [out w1] eqn:E1.
    destruct out as [[|t ts] | options | msg].
    + right. split; [exact Eq|].
      destruct (search_provider w1 (simplified_query (get_query inputs))
                  max_results) as [out2 w2] eqn:E2.
      exists w1, out2, w2. split; [reflexivity|]. split; [exact E2|].
      destruct out2; reflexivity.
    + left. split; [exact Eq|]. eexists; eexists.
      split; [reflexivity|]. split; [discriminate | reflexivity].
    + left. split; [exact Eq|]. eexists; eexists.
      split; [reflexivity|]. split; [discriminate | reflexivity].
    + left. split; [exact Eq|]. eexists; eexists.
      split; [reflexivity|]. split; [discriminate | reflexivity].
Qed.

Lemma py_list_upto_prefix {A : Type} (n : Z) (l : list A) :
  0 <= n ->
  exists rest,
    l = py_list_upto n l ++ rest
    /\ List.length (py_list_upto n l) = Nat.min (Z.to_nat n) (List.length l).
Proof.
  intros H. unfold py_list_upto.
  destruct (0 <=? n) eqn:E; [|apply Z.leb_gt in E; lia].
  exists (skipn (Z.to_nat n) l). split.
  - symmetry. apply firstn_skipn.
  - apply length_firstn.
Qed.

(** X1.  The search node calls nothing but the search provider, always
    with [max_results] as the limit: not at all, once with the query, or
    once with the query and, that call having returned no title, once
    more with the simplified query.  It never calls a third time. *)
Theorem search_node_calls (max_results : Z) (inputs : Dict) (w : World) :
  let query := get_query inputs in
  let trace := calls (WikipediaSearchNode max_results inputs w) in
  (query = EmptyString /\ trace = [])
  \/ (exists out,
        out <> SearchOk []
        /\ trace = [EvSearch query max_results out])
  \/ (exists out,
        trace = [EvSearch query max_results (SearchOk []);
                 EvSearch (simplified_query query) max_results out]).
Proof.
  cbv zeta.
  destruct (search_node_run max_results inputs w)
    as [[Hq ->] | [[_ [out [w1 [_ [Hne ->]]]]]
                  | [_ [w1 [out2 [w2 [_ [_ ->]]]]]]]].
  - left. split; [exact Hq | reflexivity].
  - right; left. exists out. split; [exact Hne | reflexivity].
  - right; right. exists out2. reflexivity.
Qed.

(** X2.  When a call of the search provider raises, be it the first call
    or the retry, the node does not raise: it returns no search results,
    the message of the exception under [error], and the query. *)
Theorem search_fault_reported (max_results : Z) (inputs : Dict) (w : World)
    (term : string) (n : Z) (msg : string) :
  In (EvSearch term n (SearchFault msg))
     (calls (WikipediaSearchNode max_results inputs w)) ->
  value (WikipediaSearchNode max_results inputs w)
  = {| d_query := Some (get_query inputs); d_search_results := Some [];
       d_documents := None; d_answer := None; d_sources := None;
       d_error := Some msg |}.
Proof.
  destruct (search_node_run max_results inputs w)
    as [[Hq ->] | [[_ [out [w1 [_ [Hne ->]]]]]
                  | [_ [w1 [out2 [w2 [_ [_ ->]]]]]]]];
    unfold calls, value; simpl.
  - intros [].
  - intros [H | []]. injection H as _ _ ->. reflexivity.
  - intros [H | [H | []]]; [discriminate|].
    injection H as _ _ ->. reflexivity.
Qed.

(** X3.  When a call of the search provider raises a disambiguation, on
    the first call or on the retry, and [max_results] is not negative,
    the node returns the first [max_results] options, in their order, or
    all of them when there are fewer, and sets no [error]. *)
Theorem search_disambiguation_options (max_results : Z) (inputs : Dict)
    (w : World) (term : string) (n : Z) (options : list string) :
  0 <= max_results ->
  In (EvSearch term n (SearchDisambiguation options))
     (calls (WikipediaSearchNode max_results inputs w)) ->
  exists titles rest,
    options = titles ++ rest
    /\ List.length titles
       = Nat.min (Z.to_nat max_results) (List.length options)
    /\ value (WikipediaSearchNode max_results inputs w)
       = {| d_query := Some (get_query inputs);
            d_search_results := Some titles;
            d_documents := None; d_answer := None; d_sources := None;
            d_error := None |}.
Proof.
  intros Hmax.
  destruct (py_list_upto_prefix max_results options Hmax)
    as [rest [Hsplit Hlen]].
  destruct (search_node_run max_results inputs w)
    as [[Hq ->] | [[_ [out [w1 [_ [Hne ->]]]]]
                  | [_ [w1 [out2 [w2 [_ [_ ->]]]]]]]];
    unfold calls, value; simpl.
  - intros [].
  - intros [H | []]. injection H as _ _ ->.
    exists (py_list_upto max_results options), rest. auto.
  - intros [H | [H | []]]; [discriminate|].
    injection H as _ _ ->.
    exists (py_list_upto max_results options), rest. auto.
Qed.

(** X4.  Titles the search provider finds, on the first call or on the
    retry, are returned as they are, in the provider's order, with the
    query and no [error]. *)
Theorem search_titles_returned (max_results : Z) (inputs : Dict)
    (w : World) (term : string) (n : Z) (title : string)
    (titles : list string) :
  In (EvSearch term n (SearchOk (title :: titles)))
     (calls (WikipediaSearchNode max_results inputs w)) ->
  value (WikipediaSearchNode max_results inputs w)
  = {| d_query := Some (get_query inputs);
       d_search_results := Some (title :: titles);
       d_documents := None; d_answer := None; d_sources := None;
       d_error := None |}.
Proof.
  destruct (search_node_run max_results inputs w)
    as [[Hq ->] | [[_ [out [w1 [_ [Hne ->]]]]]
                  | [_ [w1 [out2 [w2 [_ [_ ->]]]]]]]];
    unfold calls, value; simpl.
  - intros [].
  - intros [H | []]. injection H as _ _ ->. reflexivity.
  - intros [H | [H | []]]; [discriminate|].
    injection H as _ _ ->. reflexivity.
Qed.

(** *** More on the fetch node *)

Lemma str_take_length (n : nat) (s : string) :
  String.length (str_take n s) = Nat.min n (String.length s).
Proof.
  revert s; induction n as [|n IH]; intros [|c s]; simpl; try reflexivity.
  rewrite IH. reflexivity.
Qed.

Lemma str_take_split (n : nat) (s : string) :
  exists rest, s = (str_take n s ++ rest)%string.
Proof.
  destruct (Nat.le_gt_cases n (String.length s)) as [H | H].
  - destruct (str_take_prefix n s H) as [rest [E _]]. exists rest. exact E.
  - exists EmptyString. rewrite str_take_all by lia.
    symmetry. apply str_app_nil_r.
Qed.

Lemma str_app_length (a b : string) :
  String.length (a ++ b)%string = (String.length a + String.length b)%nat.
Proof. induction a as [|c a IH]; simpl; [|rewrite IH]; reflexivity. Qed.

Lemma summary_of_capped (page : Page) :
  (String.length (summary_of page) <= 500)%nat
  /\ match page_summary page with
     | Some s => exists rest, s = (summary_of page ++ rest)%string
     | None => summary_of page = EmptyString
     end.
Proof.
  unfold summary_of. destruct (page_summary page) as [s|].
  - destruct (str_is_empty s) eqn:E.
    + split; [simpl; lia|]. exists s. reflexivity.
    + change (py_str_upto 500 s) with (str_take 500 s).
      split; [rewrite str_take_length; lia | apply str_take_split].
  - split; [simpl; lia | reflexivity].
Qed.

Lemma build_document_length (max : Z) (title : string) (page : Page) :
  0 <= max ->
  str_len (doc_content (build_document max title page)) <= max + 23.
Proof.
  intros Hmax. unfold build_document, py_str_upto, str_len. simpl.
  destruct (0 <=? max) eqn:E; [|apply Z.leb_gt in E; lia].
  destruct (Z.of_nat (String.length (page_content page)) >? max);
    [rewrite str_app_length|]; rewrite str_take_length;
    simpl String.length; lia.
Qed.

Lemma fetch_one_spec_calls (max : Z) (title : string) (w : World) :
  forallb is_page (calls (fetch_one_spec max title w)) = true
  /\ (1 <= List.length (calls (fetch_one_spec max title w)) <= 2)%nat.
Proof.
  unfold fetch_one_spec, bind, wikipedia_page, ret, calls.
  run_page w title.
  destruct out as [page | [|first others] | | msg]; simpl;
    try (split; [reflexivity | lia]).
  run_page w0 first.
  destruct out; simpl; split; (reflexivity || lia).
Qed.

Lemma fetch_each_spec_calls (max : Z) (titles : list string) :
  forall w : World,
    forallb is_page (calls (fetch_each_spec max titles w)) = true
    /\ (List.length titles
          <= List.length (calls (fetch_each_spec max titles w))
          <= 2 * List.length titles)%nat.
Proof.
  induction titles as [|title rest IH]; intros w.
  - simpl. split; [reflexivity | lia].
  - simpl fetch_each_spec. unfold bind.
    pose proof (fetch_one_spec_calls max title w) as [H1 H2].
    destruct (fetch_one_spec max title w) as [[o w1] t1].
    destruct (IH w1) as [H3 H4].
    destruct (fetch_each_spec max rest w1) as [[os w2] t2].
    unfold calls, ret in *. cbn [snd fst List.length] in *.
    rewrite app_nil_r, forallb_app, length_app.
    split; [rewrite H1, H3; reflexivity | lia].
Qed.

(** A provider under which no fetch gives a page. *)
Lemma fetch_each_spec_all_fail (max : Z) (titles : list string) :
  (forall w title page, fst (page_provider w title) <> PageOk page) ->
  forall w : World, fetched (value (fetch_each_spec max titles w)) = [].
Proof.
  intros Hfail.
  induction titles as [|title rest IH]; intros w; [reflexivity|].
  simpl fetch_each_spec.
  unfold bind at 1. unfold fetch_one_spec, bind, wikipedia_page.
  pose proof (Hfail w title) as H1.
  destruct (page_provider w title) as [out w1]. simpl in H1.
  destruct out as [page | [|first others] | | msg];
    try (exfalso; exact (H1 page eq_refl));
    try (unfold ret; simpl; specialize (IH w1);
         destruct (fetch_each_spec max rest w1) as [[os w2] t2];
         exact IH).
  pose proof (Hfail w1 first) as H2.
  destruct (page_provider w1 first) as [out w2]. simpl in H2.
  destruct out as [page | opts | | msg];
    try (exfalso; exact (H2 page eq_refl));
    unfold ret; simpl; specialize (IH w2);
    destruct (fetch_each_spec max rest w2) as [[os w3] t3]; exact IH.
Qed.


Lemma fetch_each_spec_skip (max : Z) (title : string)
    (after : list string) (w0 w1 : World) (out : PageOutcome) :
  page_provider w0 title = (out, w1) ->
  out = PageError \/ (exists msg, out = PageFault msg)
  \/ out = PageDisambiguation [] ->
  fetch_each_spec max (title :: after) w0
  = (None :: value (fetch_each_spec max after w1),
     world_after (fetch_each_spec max after w1),
     EvPage title out :: calls (fetch_each_spec max after w1)).
Proof.
  intros Hpage Hout. simpl.
  unfold bind, fetch_one_spec, bind, wikipedia_page. rewrite Hpage.
  destruct Hout as [-> | [[msg ->] | ->]]; unfold ret; simpl;
    destruct (fetch_each_spec max after w1) as [[os w2] t2];
    unfold value, world_after, calls; simpl; rewrite app_nil_r;
    reflexivity.
Qed.

(** X5.  When no fetch of the run gives a page, the fetch node, given at
    least one title, still returns normally: an empty [documents] list,
    the query and no [error] key.  The error
    ["No search results to process"] is kept for an empty title list. *)
Theorem all_fetches_fail_no_error (max_content_length : Z) (inputs : Dict)
    (w : World) :
  (forall w title page, fst (page_provider w title) <> PageOk page) ->
  get_search_results inputs <> [] ->
  value (WikipediaSummaryNode max_content_length inputs w)
  = {| d_query := Some (get_query inputs); d_search_results := None;
       d_documents := Some []; d_answer := None; d_sources := None;
       d_error := None |}.
Proof.
  intros Hfail Hne. rewrite summary_node_run. cbv zeta.
  unfold value at 1. simpl fst.
  rewrite (fetch_each_spec_all_fail _ _ Hfail).
  destruct (get_search_results inputs); [contradiction | reflexivity].
Qed.

Lemma fetch_one_spec_block (max : Z) (title : string) (w : World) :
  title_calls title (calls (fetch_one_spec max title w)).
Proof.
  unfold fetch_one_spec, bind, wikipedia_page, ret, calls, title_calls.
  run_page w title.
  destruct out as [page | [|first others] | | msg]; simpl;
    try (left; eexists; split; [reflexivity | discriminate]).
  run_page w0 first.
  right. exists first, others, out.
  destruct out; reflexivity.
Qed.

Lemma fetch_each_spec_blocks (max : Z) (titles : list string) :
  forall w : World,
    exists blocks,
      calls (fetch_each_spec max titles w) = List.concat blocks
      /\ Forall2 title_calls titles blocks.
Proof.
  induction titles as [|title rest IH]; intros w.
  - exists []. split; [reflexivity | constructor].
  - simpl fetch_each_spec. unfold bind.
    pose proof (fetch_one_spec_block max title w) as H1.
    destruct (fetch_one_spec max title w) as [[o w1] t1].
    destruct (IH w1) as [blocks [H2 H3]].
    destruct (fetch_each_spec max rest w1) as [[os w2] t2].
    unfold calls, ret in *. cbn [snd fst] in *.
    exists (t1 :: blocks). split.
    + rewrite app_nil_r, H2. reflexivity.
    + constructor; assumption.
Qed.

(** X6.  The fetch node calls nothing but the page provider, and its
    calls are one block per title it is given, in the order of the
    titles: one fetch of the title, followed, only when that fetch raised
    a disambiguation with options, by one fetch of the first option.  So
    every title is fetched exactly once, at most one more fetch is made
    on its account, and an empty list costs no call. *)
Theorem fetch_node_calls (max_content_length : Z) (inputs : Dict)
    (w : World) :
  let trace := calls (WikipediaSummaryNode max_content_length inputs w) in
  forallb is_page trace = true
  /\ (List.length (get_search_results inputs) <= List.length trace
        <= 2 * List.length (get_search_results inputs))%nat
  /\ exists blocks,
       trace = List.concat blocks
       /\ Forall2 title_calls (get_search_results inputs) blocks.
Proof.
  cbv zeta. rewrite summary_node_run. cbv zeta.
  unfold calls at 1 2 3 4. simpl snd.
  destruct (fetch_each_spec_calls max_content_length
              (get_search_results inputs) w) as [H1 H2].
  split; [exact H1|]. split; [exact H2|].
  apply fetch_each_spec_blocks.
Qed.

(** X7.  Every document the fetch node stores carries the url of the
    page it was built from and a summary of at most 500 characters: the
    page summary when that is shorter, its first characters otherwise,
    and the empty text when the page has no summary. *)
Theorem stored_summary_capped (max_content_length : Z) (inputs : Dict)
    (w : World) (d : Document) :
  In d (get_documents
          (value (WikipediaSummaryNode max_content_length inputs w))) ->
  exists page,
    In (EvPage (doc_title d) (PageOk page))
       (calls (WikipediaSummaryNode max_content_length inputs w))
    /\ doc_url d = page_url page
    /\ (String.length (doc_summary d) <= 500)%nat
    /\ match page_summary page with
       | Some s => exists rest, s = (doc_summary d ++ rest)%string
       | None => doc_summary d = EmptyString
       end.
Proof.
  rewrite summary_node_run. cbv zeta.
  unfold value at 1, calls at 1, get_documents. simpl.
  intros Hin. apply fetched_In in Hin.
  destruct (fetch_each_spec_page _ _ _ _ Hin) as [page [Hcall Hd]].
  exists page. split; [exact Hcall|].
  rewrite Hd. simpl. split; [reflexivity|]. apply summary_of_capped.
Qed.

(** X8.  With a non-negative [max_content_length], no stored body is
    longer than [max_content_length] plus the 23 characters of the
    truncation marker. *)
Theorem stored_body_bounded (max_content_length : Z) (inputs : Dict)
    (w : World) (d : Document) :
  0 <= max_content_length ->
  In d (get_documents
          (value (WikipediaSummaryNode max_content_length inputs w))) ->
  str_len (doc_content d) <= max_content_length + 23.
Proof.
  intros Hmax. rewrite summary_node_documents.
  intros Hin. apply fetched_In in Hin.
  destruct (fetch_each_spec_page _ _ _ _ Hin) as [page [_ Hd]].
  rewrite Hd. apply build_document_length. exact Hmax.
Qed.

(** X9.  A title whose fetch reports a missing page, raises any other
    exception, or raises a disambiguation without options does not stop
    the batch: it costs one call and gives no document, and the titles
    after it are fetched as if it had not been there, from the world it
    left. *)
Theorem failed_title_is_skipped (max_content_length : Z) (inputs : Dict)
    (before after : list string) (title : string) (w w1 : World)
    (out : PageOutcome) :
  get_search_results inputs = before ++ title :: after ->
  let earlier := fetch_each_spec max_content_length before w in
  page_provider (world_after earlier) title = (out, w1) ->
  out = PageError \/ (exists msg, out = PageFault msg)
  \/ out = PageDisambiguation [] ->
  let later := fetch_each_spec max_content_length after w1 in
  let r := WikipediaSummaryNode max_content_length inputs w in
  get_documents (value r) = fetched (value earlier) ++ fetched (value later)
  /\ calls r = calls earlier ++ EvPage title out :: calls later.
Proof.
  intros Hres. cbv zeta. intros Hpage Hout.
  rewrite summary_node_run. cbv zeta. rewrite Hres.
  rewrite fetch_each_spec_app.
  rewrite (fetch_each_spec_skip _ _ _ _ _ _ Hpage Hout).
  unfold value at 1 2, calls at 1 2, get_documents. simpl.
  rewrite fetched_app. split; reflexivity.
Qed.


(** *** More on the synthesis node *)

Lemma str_contains_here (x post : string) :
  str_contains (x ++ post) x.
Proof. exists EmptyString, post. reflexivity. Qed.

Lemma str_contains_app_r (a b x : string) :
  str_contains b x -> str_contains (a ++ b) x.
Proof.
  intros [pre [post ->]]. exists (a ++ pre)%string, post.
  rewrite str_app_assoc. reflexivity.
Qed.

Lemma py_join_contains (sep x : string) (parts : list string) :
  In x parts -> str_contains (py_join sep parts) x.
Proof.
  induction parts as [|p rest IH]; [intros []|].
  intros [-> | Hin].
  - destruct rest as [|q rest].
    + exists EmptyString, EmptyString. simpl.
      rewrite str_app_nil_r. reflexivity.
    + cbn [py_join]. apply str_contains_here.
  - destruct rest as [|q rest]; [destruct Hin|].
    cbn [py_join]. do 2 apply str_contains_app_r. exact (IH Hin).
Qed.

Lemma str_contains_here3 (a b c post : string) :
  str_contains (a ++ b ++ c ++ post) (a ++ b ++ c).
Proof.
  exists EmptyString, post. simpl. rewrite !str_app_assoc. reflexivity.
Qed.

Lemma str_contains_inside (pre x post rest : string) :
  str_contains ((pre ++ x ++ post) ++ rest) x.
Proof.
  exists pre, (post ++ rest)%string. rewrite !str_app_assoc. reflexivity.
Qed.

Lemma make_prompt_contains_query (query context : string) :
  str_contains (make_prompt query context)
    ("User Question: " ++ query ++ nl).
Proof.
  unfold make_prompt.
  repeat first [apply str_contains_here3 | apply str_contains_app_r].
Qed.

Lemma make_prompt_contains_context (query context x : string) :
  str_contains context x -> str_contains (make_prompt query context) x.
Proof.
  intros [pre [post ->]]. unfold make_prompt.
  repeat first [apply str_contains_inside | apply str_contains_app_r].
Qed.

(** X11.  When the generation call returns a text, the synthesis node
    returns that text as the answer, unmodified, with the query and one
    source per input document, in the order of the documents. *)
Theorem generated_answer_passed_through (inputs : Dict) (w : World)
    (req : ChatRequest) (answer : string) :
  In (EvChat req (ChatOk answer)) (calls (GPTSummarizerNode inputs w)) ->
  value (GPTSummarizerNode inputs w)
  = {| d_query := Some (get_query inputs); d_search_results := None;
       d_documents := None; d_answer := Some answer;
       d_sources :=
         Some (map (fun doc =>
                      {| src_title := doc_title doc; src_url := doc_url doc;
                         src_summary := doc_summary doc |})
                 (get_documents inputs));
       d_error := None |}.
Proof.
  destruct (gpt_node_run inputs w)
    as [_ [_ [[_ ->] | [[_ [_ ->]]
                       | [_ [_ [out [w' [_ [_ [Hc Hv]]]]]]]]]]].
  - intros [].
  - intros [].
  - rewrite Hc, Hv. intros [H | []]. injection H as _ ->. reflexivity.
Qed.

(** X12.  The synthesis node calls nothing but the generation provider,
    and at most once: not at all when the query is empty or there is no
    document, and otherwise exactly once, for the model
    ["gpt-3.5-turbo"] with temperature 0.3 and at most 1000 tokens. *)
Theorem synthesis_node_calls (inputs : Dict) (w : World) :
  let trace := calls (GPTSummarizerNode inputs w) in
  ((get_query inputs = EmptyString \/ get_documents inputs = [])
   /\ trace = [])
  \/ (get_query inputs <> EmptyString /\ get_documents inputs <> []
      /\ exists req out,
           trace = [EvChat req out]
           /\ chat_model req = "gpt-3.5-turbo"
           /\ chat_temperature req = (3 # 10)%Q
           /\ chat_max_tokens req = 1000).
Proof.
  cbv zeta.
  destruct (gpt_node_run inputs w)
    as [_ [_ [[Hq ->] | [[_ [Hd ->]]
                        | [Hq [Hd [out [w' [_ [_ [Hc _]]]]]]]]]]].
  - left. split; [left; exact Hq | reflexivity].
  - left. split; [right; exact Hd | reflexivity].
  - right. split; [exact Hq|]. split; [exact Hd|].
    eexists; eexists. split; [exact Hc|]. repeat split.
Qed.

(** X13.  The prompt of a generation call holds the line of the user's
    question and, for every input document, its title between double
    stars followed by its stored body. *)
Theorem prompt_holds_query_and_documents (inputs : Dict) (w : World)
    (req : ChatRequest) (out : ChatOutcome) :
  In (EvChat req out) (calls (GPTSummarizerNode inputs w)) ->
  str_contains (chat_prompt req)
    ("User Question: " ++ get_query inputs ++ nl)
  /\ forall doc,
       In doc (get_documents inputs) ->
       str_contains (chat_prompt req)
         ("**" ++ doc_title doc ++ "**:" ++ nl ++ doc_content doc).
Proof.
  destruct (gpt_node_run inputs w)
    as [_ [_ [[_ ->] | [[_ [_ ->]]
                       | [_ [_ [out' [w' [_ [_ [Hc _]]]]]]]]]]].
  - intros [].
  - intros [].
  - rewrite Hc. intros [H | []]. injection H as <- _.
    unfold synthesis_request, chat_request. cbn [chat_prompt].
    split; [apply make_prompt_contains_query|].
    intros doc Hin. apply make_prompt_contains_context.
    apply py_join_contains.
    exact (in_map context_part _ _ Hin).
Qed.

(** *** More on the run of [research] *)

(** The state after the search node, and what bounds its titles. *)
Lemma search_state (max_results : Z) (query : string) (w : World) :
  exists titles e1,
    merge (initial_state query)
      (value (WikipediaSearchNode max_results (initial_state query) w))
    = {| d_query := Some query; d_search_results := Some titles;
         d_documents := Some []; d_answer := Some EmptyString;
         d_sources := Some []; d_error := Some e1 |}
    /\ (titles <> [] -> e1 = EmptyString)
    /\ (query = EmptyString -> titles = [])
    /\ (0 <= max_results ->
        Z.of_nat (List.length titles) <= max_results
        \/ exists term,
             In (EvSearch term max_results (SearchOk titles))
                (calls (WikipediaSearchNode max_results
                          (initial_state query) w)))
    /\ (0 <= max_results -> honours_limit ->
        Z.of_nat (List.length titles) <= max_results).
Proof.
  destruct (search_node_run max_results (initial_state query) w)
    as [[Hq ->] | [[Hq [out [w1 [E1 [_ ->]]]]]
                  | [Hq [w1 [out [w2 [_ [E2 ->]]]]]]]];
    change (get_query (initial_state query)) with query in *;
    unfold value, calls; cbn [fst snd].
  - exists [], no_query_text. split; [reflexivity|].
    split; [intros H; contradiction|]. split; [reflexivity|].
    split; [intros Hmax; left; simpl; lia | intros Hmax _; simpl; lia].
  - destruct out as [results | options | msg]; cbn.
    + exists results, EmptyString. split; [reflexivity|].
      split; [reflexivity|]. split; [intros H; contradiction|].
      split.
      * intros _. right. exists query. left. reflexivity.
      * intros Hmax Hlim. exact (Hlim _ _ _ _ _ Hmax E1).
    + exists (py_list_upto max_results options), EmptyString.
      split; [reflexivity|].
      split; [reflexivity|]. split; [intros H; contradiction|].
      split; [intros Hmax; left | intros Hmax _];
        apply py_list_upto_length; exact Hmax.
    + exists [], msg. split; [reflexivity|].
      split; [intros H; contradiction|]. split; [intros H; contradiction|].
      split; [intros Hmax; left; simpl; lia | intros Hmax _; simpl; lia].
  - destruct out as [results | options | msg]; cbn.
    + exists results, EmptyString. split; [reflexivity|].
      split; [reflexivity|]. split; [intros H; contradiction|].
      split.
      * intros _. right. exists (simplified_query query).
        right. left. reflexivity.
      * intros Hmax Hlim. exact (Hlim _ _ _ _ _ Hmax E2).
    + exists (py_list_upto max_results options), EmptyString.
      split; [reflexivity|].
      split; [reflexivity|]. split; [intros H; contradiction|].
      split; [intros Hmax; left | intros Hmax _];
        apply py_list_upto_length; exact Hmax.
    + exists [], msg. split; [reflexivity|].
      split; [intros H; contradiction|]. split; [intros H; contradiction|].
      split; [intros Hmax; left; simpl; lia | intros Hmax _; simpl; lia].
Qed.

(** The state after the fetch node. *)
Lemma fetch_state (max_content_length : Z) (query e1 : string)
    (titles : list string) (w1 : World) :
  (titles <> [] -> e1 = EmptyString) ->
  let s1 := {| d_query := Some query; d_search_results := Some titles;
               d_documents := Some []; d_answer := Some EmptyString;
               d_sources := Some []; d_error := Some e1 |} in
  let spec := fetch_each_spec max_content_length titles w1 in
  merge s1 (value (WikipediaSummaryNode max_content_length s1 w1))
  = {| d_query := Some query; d_search_results := Some titles;
       d_documents := Some (fetched (value spec));
       d_answer := Some EmptyString; d_sources := Some [];
       d_error := Some (error_after_fetch titles) |}.
Proof.
  intros He. cbv zeta. rewrite summary_node_run. cbv zeta.
  unfold value at 1. cbn [fst get_search_results get_query d_query
                          d_search_results merge or_else d_documents
                          d_answer d_sources d_error].
  destruct titles as [|t ts]; cbn [or_else error_after_fetch].
  - reflexivity.
  - rewrite He by discriminate. reflexivity.
Qed.

(** The state after the synthesis node. *)
Lemma synthesis_state (query err : string) (titles : list string)
    (docs : list Document) (w2 : World) :
  (query = EmptyString -> docs = []) ->
  let s2 := {| d_query := Some query; d_search_results := Some titles;
               d_documents := Some docs; d_answer := Some EmptyString;
               d_sources := Some []; d_error := Some err |} in
  let r3 := GPTSummarizerNode s2 w2 in
  exists answer,
    merge s2 (value r3)
    = {| d_query := Some query; d_search_results := Some titles;
         d_documents := Some docs; d_answer := Some answer;
         d_sources := Some (map source_of docs); d_error := Some err |}
    /\ (query = EmptyString -> answer = no_query_text)
    /\ (query <> EmptyString -> docs = [] -> answer = apology_text)
    /\ (calls r3 = [] <-> docs = [])
    /\ forallb is_chat (calls r3) = true
    /\ (List.length (calls r3) <= 1)%nat.
Proof.
  intros Hdocs. cbv zeta.
  match goal with
  | |- context [GPTSummarizerNode ?s2 w2] =>
      destruct (gpt_node_run s2 w2)
        as [_ [_ [[Hq ->] | [[Hq [Hd ->]]
                            | [Hq [Hd [out [w' [_ [_ [Hc Hv]]]]]]]]]]];
      change (get_query s2) with query in *;
      change (get_documents s2) with docs in *
  end.
  - pose proof (Hdocs Hq) as ->. exists no_query_text.
    unfold value, calls. cbn. repeat split; auto. contradiction.
  - subst docs. exists apology_text.
    unfold value, calls. cbn. repeat split; auto. contradiction.
  - rewrite Hv, Hc.
    eexists. split; [reflexivity|].
    split; [contradiction|]. split; [contradiction|].
    split; [split; [discriminate | contradiction]|].
    split; [reflexivity | simpl; lia].
Qed.

(** The run of [research] as a whole: the state it returns and the calls
    it made. *)
Lemma research_state_full (max_results max_content_length : Z)
    (query : string) (w : World) :
  let r := research max_results max_content_length query w in
  exists titles docs answer searches pages chats,
    value r
    = {| d_query := Some query; d_search_results := Some titles;
         d_documents := Some docs; d_answer := Some answer;
         d_sources := Some (map source_of docs);
         d_error := Some (error_after_fetch titles) |}
    /\ (query = EmptyString -> answer = no_query_text)
    /\ (query <> EmptyString -> docs = [] -> answer = apology_text)
    /\ (titles = [] -> docs = [])
    /\ calls r = searches ++ pages ++ chats
    /\ searches
       = calls (WikipediaSearchNode max_results (initial_state query) w)
    /\ forallb is_page pages = true
    /\ (List.length titles <= List.length pages
          <= 2 * List.length titles)%nat
    /\ forallb is_chat chats = true
    /\ (List.length chats <= 1)%nat
    /\ (chats = [] <-> docs = [])
    /\ (List.length docs <= List.length titles)%nat
    /\ (exists blocks,
          pages = List.concat blocks /\ Forall2 title_calls titles blocks)
    /\ (0 <= max_results ->
        Z.of_nat (List.length titles) <= max_results
        \/ exists term,
             In (EvSearch term max_results (SearchOk titles)) searches)
    /\ (0 <= max_results -> honours_limit ->
        Z.of_nat (List.length titles) <= max_results).
Proof.
  cbv zeta. rewrite research_run. cbv zeta.
  destruct (search_state max_results query w)
    as [titles [e1 [Hs1 [He1 [Hq [Hb1 Hb2]]]]]].
  rewrite Hs1.
  set (r1 := WikipediaSearchNode max_results (initial_state query) w) in *.
  rewrite (fetch_state max_content_length query e1 titles _ He1).
  rewrite summary_node_run. cbv zeta.
  cbn [get_search_results d_search_results].
  set (spec := fetch_each_spec max_content_length titles (world_after r1)).
  unfold world_after at 2, calls at 2. cbn [fst snd].
  assert (titles = [] -> fetched (value spec) = []) as Hnone.
  { intros ->. reflexivity. }
  destruct (synthesis_state query (error_after_fetch titles) titles
              (fetched (value spec)) (world_after spec))
    as [answer [Hfinal [Ha1 [Ha2 [Hc1 [Hc2 Hc3]]]]]].
  { intros H. apply Hnone, Hq, H. }
  exists titles, (fetched (value spec)), answer, (calls r1), (calls spec).
  eexists. unfold value at 1, calls at 1. cbn [fst snd].
  split; [exact Hfinal|]. split; [exact Ha1|]. split; [exact Ha2|].
  split; [exact Hnone|]. split; [reflexivity|]. split; [reflexivity|].
  destruct (fetch_each_spec_calls max_content_length titles (world_after r1))
    as [Hp1 Hp2].
  split; [exact Hp1|]. split; [exact Hp2|].
  split; [exact Hc2|]. split; [exact Hc3|]. split; [exact Hc1|].
  split.
  { pose proof (fetched_length (value spec)) as Hf.
    unfold spec in Hf at 2. rewrite fetch_each_spec_length in Hf. exact Hf. }
  split; [apply fetch_each_spec_blocks|].
  split; [exact Hb1 | exact Hb2].
Qed.

Lemma research_state (max_results max_content_length : Z) (query : string)
    (w : World) :
  let r := research max_results max_content_length query w in
  exists titles docs answer searches pages chats,
    value r
    = {| d_query := Some query; d_search_results := Some titles;
         d_documents := Some docs; d_answer := Some answer;
         d_sources := Some (map source_of docs);
         d_error := Some (error_after_fetch titles) |}
    /\ (query = EmptyString -> answer = no_query_text)
    /\ (query <> EmptyString -> docs = [] -> answer = apology_text)
    /\ (titles = [] -> docs = [])
    /\ calls r = searches ++ pages ++ chats
    /\ searches
       = calls (WikipediaSearchNode max_results (initial_state query) w)
    /\ forallb is_page pages = true
    /\ (List.length titles <= List.length pages
          <= 2 * List.length titles)%nat
    /\ forallb is_chat chats = true
    /\ (List.length chats <= 1)%nat
    /\ (chats = [] <-> docs = []).
Proof.
  cbv zeta.
  destruct (research_state_full max_results max_content_length query w)
    as [titles [docs [answer [ss [ps [cs [H1 [H2 [H3 [H4 [H5 [H6 [H7 [H8 [H9 [H10 [H11 _]]]]]]]]]]]]]]]]].
  exists titles, docs, answer, ss, ps, cs.
  repeat (split; [assumption|]). assumption.
Qed.

(** C1 (amended).  In the state [research] returns there are never more
    documents than search results: the fetch stage adds at most one
    document per title.  With a non-negative [max_results] there are no
    more search results than [max_results], unless they are the list a
    search call of this run returned, which the search stage passes on
    as it is (it cuts only disambiguation options to [max_results]); so
    the bound holds whenever the search provider returns at most the
    number of titles it is asked for. *)
Theorem documents_le_search_results_le_max
    (max_results max_content_length : Z) (query : string) (w : World) :
  let r := research max_results max_content_length query w in
  let state := value r in
  (List.length (get_documents state)
     <= List.length (get_search_results state))%nat
  /\ (0 <= max_results ->
      Z.of_nat (List.length (get_search_results state)) <= max_results
      \/ exists term,
           In (EvSearch term max_results
                 (SearchOk (get_search_results state))) (calls r))
  /\ (0 <= max_results -> honours_limit ->
      Z.of_nat (List.length (get_search_results state)) <= max_results).
Proof.
  cbv zeta.
  destruct (research_state_full max_results max_content_length query w)
    as [titles [docs [answer [ss [ps [cs [-> [_ [_ [_ [-> [_ [_ [_ [_ [_ [_ [Hd [_ [Hb1 Hb2]]]]]]]]]]]]]]]]]]]].
  cbn [get_documents get_search_results d_documents d_search_results].
  split; [exact Hd|]. split; [|exact Hb2].
  intros Hmax. destruct (Hb1 Hmax) as [H | [term H]]; [left; exact H|].
  right. exists term. apply in_or_app. left. exact H.
Qed.

(** X14.  In the state [research] returns, [sources] is the list of
    the projections [{title, url, summary}] of [documents], one per
    document and in their order, whatever the providers did. *)
Theorem research_sources_from_documents
    (max_results max_content_length : Z) (query : string) (w : World) :
  let state := value (research max_results max_content_length query w) in
  get_sources state
  = map (fun doc =>
           {| src_title := doc_title doc; src_url := doc_url doc;
              src_summary := doc_summary doc |})
      (get_documents state).
Proof.
  cbv zeta.
  destruct (research_state max_results max_content_length query w)
    as [titles [docs [answer [ss [ps [cs [-> _]]]]]]].
  reflexivity.
Qed.

(** X15.  In the state [research] returns, [error] is one of two texts:
    ["No search results to process"] when [search_results] is empty, and
    the empty text otherwise.  The message of a search that raised, and
    ["No query provided"], are overwritten by the fetch node; failed
    fetches and a failed generation leave no trace under [error]. *)
Theorem research_error_field
    (max_results max_content_length : Z) (query : string) (w : World) :
  let state := value (research max_results max_content_length query w) in
  d_error state
  = Some match get_search_results state with
         | [] => "No search results to process"
         | _ => EmptyString
         end.
Proof.
  cbv zeta.
  destruct (research_state max_results max_content_length query w)
    as [titles [docs [answer [ss [ps [cs [-> _]]]]]]].
  reflexivity.
Qed.

(** X16.  The state [research] returns has its six keys, and [query] is
    the query it was called with, as typed. *)
Theorem research_state_well_formed
    (max_results max_content_length : Z) (query : string) (w : World) :
  let state := value (research max_results max_content_length query w) in
  d_query state = Some query
  /\ d_search_results state <> None /\ d_documents state <> None
  /\ d_answer state <> None /\ d_sources state <> None
  /\ d_error state <> None.
Proof.
  cbv zeta.
  destruct (research_state max_results max_content_length query w)
    as [titles [docs [answer [ss [ps [cs [-> _]]]]]]].
  cbn. repeat split; discriminate.
Qed.

(** X17.  The calls of a run of [research] come in three parts, in this
    order: at most two searches; then fetches only, one block for each
    title in [search_results] and in their order, a block being one fetch
    of the title followed, only when that fetch raised a disambiguation
    with options, by one fetch of the first option; then at most one
    generation call, which is made exactly when [documents] is not empty. *)
Theorem research_call_order
    (max_results max_content_length : Z) (query : string) (w : World) :
  let r := research max_results max_content_length query w in
  exists searches pages chats,
    calls r = searches ++ pages ++ chats
    /\ forallb is_search searches = true
    /\ (List.length searches <= 2)%nat
    /\ forallb is_page pages = true
    /\ (List.length (get_search_results (value r)) <= List.length pages
          <= 2 * List.length (get_search_results (value r)))%nat
    /\ forallb is_chat chats = true
    /\ (List.length chats <= 1)%nat
    /\ (chats = [] <-> get_documents (value r) = [])
    /\ (exists blocks,
          pages = List.concat blocks
          /\ Forall2 title_calls (get_search_results (value r)) blocks).
Proof.
  cbv zeta.
  destruct (research_state_full max_results max_content_length query w)
    as [titles [docs [answer [ss [ps [cs [-> [_ [_ [_ [Hc [Hss [Hp1 [Hp2 [Hc1 [Hc2 [Hc3 [_ [Hblocks _]]]]]]]]]]]]]]]]]]].
  exists ss, ps, cs. cbn [get_search_results get_documents
                          d_search_results d_documents].
  split; [exact Hc|].
  assert (forallb is_search ss = true /\ (List.length ss <= 2)%nat)
    as [Hs1 Hs2].
  { rewrite Hss.
    destruct (search_node_calls max_results (initial_state query) w)
      as [[_ ->] | [[out [_ ->]] | [out ->]]];
      split; simpl; (reflexivity || lia). }
  split; [exact Hs1|]. split; [exact Hs2|]. split; [exact Hp1|].
  split; [exact Hp2|]. split; [exact Hc1|]. split; [exact Hc2|].
  split; [exact Hc3 | exact Hblocks].
Qed.

(** X18.  When a run of [research] ends without documents, the answer is
    a fixed text and no generation call was made: ["No query provided"]
    for the empty query, the apology for any other. *)
Theorem research_without_documents
    (max_results max_content_length : Z) (query : string) (w : World) :
  let r := research max_results max_content_length query w in
  get_documents (value r) = [] ->
  d_answer (value r)
  = Some (if str_is_empty query then "No query provided"
          else "I couldn't find any relevant Wikipedia articles for your query. Please try rephrasing your question or using different keywords.")
  /\ d_sources (value r) = Some []
  /\ forallb (fun e => negb (is_chat e)) (calls r) = true.
Proof.
  cbv zeta.
  destruct (research_state max_results max_content_length query w)
    as [titles [docs [answer [ss [ps [cs
         [-> [Ha1 [Ha2 [_ [-> [Hss [Hp1 [_ [_ [_ Hc3]]]]]]]]]]]]]]]].
  cbn [get_documents d_documents d_answer d_sources].
  intros ->. split; [|split; [reflexivity|]].
  - destruct (str_is_empty query) eqn:E.
    + apply str_is_empty_true in E. rewrite (Ha1 E). reflexivity.
    + apply str_is_empty_false in E. rewrite (Ha2 E eq_refl). reflexivity.
  - rewrite (proj2 Hc3 eq_refl), app_nil_r, forallb_app.
    apply andb_true_intro. split.
    + rewrite Hss.
      destruct (search_node_calls max_results (initial_state query) w)
        as [[_ ->] | [[out [_ ->]] | [out ->]]]; reflexivity.
    + clear - Hp1. induction ps as [|e ps IH]; [reflexivity|].
      simpl in *. apply andb_prop in Hp1 as [He Hps].
      destruct e; try discriminate. simpl. exact (IH Hps).
Qed.

(** X19.  What the page shows for the result of a run: an error box
    exactly when [search_results] is empty, always with the text
    ["Error: No search results to process"]; the sources section exactly
    when there are documents; the answer section unless the answer is
    the empty text. *)
Theorem research_display
    (max_results max_content_length : Z) (query : string) (w : World) :
  let state := value (research max_results max_content_length query w) in
  display_research_results state
  = (if str_is_empty (get_answer state) then []
     else [AnswerSection (get_answer state)])
    ++ match get_documents state with
       | [] => []
       | _ => [SourcesSection
                 (format_sources (map source_dict (get_sources state)))]
       end
    ++ match get_search_results state with
       | [] => [ErrorBox "Error: No search results to process"]
       | _ => []
       end.
Proof.
  cbv zeta.
  destruct (research_state max_results max_content_length query w)
    as [titles [docs [answer [ss [ps [cs [-> _]]]]]]].
  unfold display_research_results, get_answer, get_sources, get_error,
    get_documents, get_search_results.
  cbn [d_answer d_sources d_error d_documents d_search_results].
  f_equal. f_equal.
  - destruct docs; reflexivity.
  - destruct titles; reflexivity.
Qed.

End Pipeline.

(** ** The session history *)

Lemma add_to_history_timestamp (query : string) (result : ResearchState)
    (st : SessionState) :
  timestamp (add_to_history query result st) = timestamp st.
Proof.
  unfold add_to_history.
  destruct st as [[h|] cq ts]; simpl; [|reflexivity].
  destruct (Nat.ltb _ _); reflexivity.
Qed.

Lemma add_to_history_history (query : string) (result : ResearchState)
    (st : SessionState) :
  get_history (add_to_history query result st)
  = if (10 <? List.length (get_history st
                             ++ [history_entry st (query, result)]))%nat
    then py_list_last 10
           (get_history st ++ [history_entry st (query, result)])
    else get_history st ++ [history_entry st (query, result)].
Proof.
  unfold add_to_history, history_entry.
  destruct st as [[h|] cq ts]; simpl; [|reflexivity].
  destruct (Nat.ltb _ _); reflexivity.
Qed.

Lemma add_all_snoc (requests : list (string * ResearchState))
    (qr : string * ResearchState) (st : SessionState) :
  add_all (requests ++ [qr]) st
  = add_to_history (fst qr) (snd qr) (add_all requests st).
Proof. unfold add_all. rewrite fold_left_app. reflexivity. Qed.

Lemma add_all_timestamp (requests : list (string * ResearchState))
    (st : SessionState) :
  get_timestamp (add_all requests st) = get_timestamp st.
Proof.
  induction requests as [|qr requests IH] using rev_ind; [reflexivity|].
  rewrite add_all_snoc. unfold get_timestamp in *.
  rewrite add_to_history_timestamp. exact IH.
Qed.

(** From a history of at most ten entries, the history stays the tail of
    all that was ever added, ten entries at most. *)
Lemma add_all_suffix (requests : list (string * ResearchState))
    (st : SessionState) :
  (List.length (get_history st) <= 10)%nat ->
  exists older,
    get_history st ++ map (history_entry st) requests
    = older ++ get_history (add_all requests st)
    /\ List.length (get_history (add_all requests st))
       = Nat.min 10 (List.length (get_history st) + List.length requests).
Proof.
  intros Hten.
  induction requests as [|qr requests IH] using rev_ind.
  - exists []. cbn [map add_all fold_left app List.length].
    rewrite app_nil_r. split; [reflexivity | lia].
  - destruct IH as [older [Hsplit Hlen]].
    rewrite add_all_snoc, add_to_history_history.
    replace (history_entry (add_all requests st) (fst qr, snd qr))
      with (history_entry st qr)
      by (unfold history_entry; rewrite add_all_timestamp;
          destruct qr; reflexivity).
    set (h := get_history (add_all requests st)) in *.
    rewrite map_app, app_assoc, Hsplit. simpl map.
    rewrite !length_app. simpl List.length.
    destruct (10 <? List.length h + 1)%nat eqn:E.
    + apply Nat.ltb_lt in E.
      assert (List.length h = 10%nat) as H10 by lia.
      unfold py_list_last. rewrite length_app. simpl List.length.
      replace (List.length h + 1 - 10)%nat with 1%nat by lia.
      destruct h as [|x h']; [discriminate|].
      exists (older ++ [x]). cbn [skipn app]. split.
      * rewrite <- !app_assoc. reflexivity.
      * rewrite length_app. cbn [List.length] in *. lia.
    + apply Nat.ltb_ge in E.
      exists older. split.
      * rewrite <- app_assoc. reflexivity.
      * rewrite length_app. cbn [List.length]. lia.
Qed.

(** C9.  From a history of at most ten entries, the empty one of a new
    session among them, after any sequence of additions the history is
    the tail of the old history followed by the entries added, in their
    order of arrival; it holds ten entries, or all when there are fewer,
    and never more than ten.  After twelve additions it holds exactly
    ten, the twelve entries without the first two. *)
Theorem history_keeps_last_ten (st : SessionState)
    (requests : list (string * ResearchState)) :
  (List.length (get_history st) <= 10)%nat ->
  let entries :=
    map (fun qr => {| h_query := fst qr; h_result := snd qr;
                      h_timestamp := get_timestamp st |}) requests in
  let history := get_history (add_all requests st) in
  (exists older, get_history st ++ entries = older ++ history)
  /\ List.length history
     = Nat.min 10 (List.length (get_history st) + List.length entries)
  /\ (List.length history <= 10)%nat
  /\ (List.length requests = 12%nat ->
      List.length history = 10%nat /\ history = skipn 2 entries).
Proof.
  intros Hten. cbv zeta.
  destruct (add_all_suffix requests st Hten) as [older [Hsplit Hlen]].
  fold (history_entry st). rewrite length_map.
  split; [exists older; exact Hsplit|].
  split; [exact Hlen|]. split; [lia|].
  intros H12. split; [lia|].
  set (h0 := get_history st) in *.
  set (entries := map (history_entry st) requests) in *.
  set (history := get_history (add_all requests st)) in *.
  assert (List.length entries = 12%nat) as He
    by (unfold entries; rewrite length_map; exact H12).
  assert (List.length older = (List.length h0 + 2)%nat) as Holder.
  { apply (f_equal (@List.length _)) in Hsplit.
    rewrite !length_app in Hsplit. lia. }
  apply (f_equal (skipn (List.length h0 + 2))) in Hsplit.
  rewrite !skipn_app in Hsplit.
  rewrite skipn_all2 in Hsplit by lia.
  rewrite (skipn_all2 older) in Hsplit by lia.
  replace (List.length h0 + 2 - List.length h0)%nat with 2%nat in Hsplit
    by lia.
  replace (List.length h0 + 2 - List.length older)%nat with 0%nat in Hsplit
    by lia.
  simpl in Hsplit. symmetry. exact Hsplit.
Qed.

(** *** More on the history *)

(** X20.  One addition, from any session state: the new entry is the
    last of the history, and in front of it stands the old history
    without its oldest entries, of which as many are dropped as the old
    history has beyond nine: none from a history of at most nine, which
    is kept whole.  The history has at most ten entries afterwards, even
    when it had more before; the other keys of the session are left
    alone. *)
Theorem add_to_history_step (query : string) (result : ResearchState)
    (st : SessionState) :
  let st' := add_to_history query result st in
  (exists dropped kept,
     get_history st = dropped ++ kept
     /\ List.length dropped = (List.length (get_history st) - 9)%nat
     /\ get_history st'
        = kept ++ [{| h_query := query; h_result := result;
                      h_timestamp := get_timestamp st |}])
  /\ (List.length (get_history st') <= 10)%nat
  /\ current_query st' = current_query st
  /\ timestamp st' = timestamp st.
Proof.
  cbv zeta. split; [|split; [|split]].
  - rewrite add_to_history_history. fold (history_entry st (query, result)).
    set (h := get_history st). set (e := history_entry st (query, result)).
    destruct (10 <? List.length (h ++ [e]))%nat eqn:E.
    + apply Nat.ltb_lt in E. rewrite length_app in E. simpl in E.
      unfold py_list_last. rewrite length_app. cbn [List.length].
      exists (firstn (List.length h + 1 - 10) h),
             (skipn (List.length h + 1 - 10) h).
      split; [symmetry; apply firstn_skipn|].
      split; [rewrite length_firstn; lia|].
      rewrite skipn_app.
      replace (List.length h + 1 - 10 - List.length h)%nat with 0%nat by lia.
      reflexivity.
    + apply Nat.ltb_ge in E. rewrite length_app in E. simpl in E.
      exists [], h. split; [reflexivity|].
      split; [simpl; lia | reflexivity].
  - rewrite add_to_history_history.
    set (l := get_history st ++ [history_entry st (query, result)]).
    destruct (10 <? List.length l)%nat eqn:E.
    + apply Nat.ltb_lt in E. unfold py_list_last.
      rewrite length_skipn. lia.
    + apply Nat.ltb_ge in E. exact E.
  - unfold add_to_history.
    destruct st as [[h|] cq ts]; simpl; [|reflexivity].
    destruct (Nat.ltb _ _); reflexivity.
  - apply add_to_history_timestamp.
Qed.

(** X21.  [initialize_session_state] sets the two keys that are missing
    and touches nothing that is there: the history and an existing
    current query are kept, and running it again changes nothing. *)
Theorem initialize_session_state_idempotent (st : SessionState) :
  let st' := initialize_session_state st in
  research_history st' = Some (get_history st)
  /\ current_query st'
     = Some match current_query st with
            | Some q => q
            | None => EmptyString
            end
  /\ timestamp st' = timestamp st
  /\ initialize_session_state st' = st'.
Proof.
  destruct st as [[h|] [q|] ts]; cbv; repeat split.
Qed.

(** *** The sidebar of recent searches *)

(** X22.  The label of a history button shows the counter and the query,
    whole when it has at most 50 characters, and otherwise its first 47
    characters followed by three dots: never more than 50 characters of
    query. *)
Theorem history_label_bounded (i : nat) (query : string) :
  exists shown,
    history_label i query = (str_of_nat i ++ ". " ++ shown)%string
    /\ (String.length shown <= 50)%nat
    /\ ((String.length query <= 50)%nat -> shown = query)
    /\ ((50 < String.length query)%nat ->
        exists prefix rest,
          query = (prefix ++ rest)%string
          /\ String.length prefix = 47%nat
          /\ shown = (prefix ++ "...")%string).
Proof.
  unfold history_label.
  destruct (50 <? String.length query)%nat eqn:E.
  - apply Nat.ltb_lt in E.
    change (py_str_upto 47 query) with (str_take 47 query).
    destruct (str_take_prefix 47 query) as [rest [Hsplit Hlen]]; [lia|].
    exists (str_take 47 query ++ "...")%string.
    split; [reflexivity|]. split; [|split].
    + rewrite str_app_length, Hlen. simpl. lia.
    + lia.
    + intros _. exists (str_take 47 query), rest. auto.
  - apply Nat.ltb_ge in E. exists query.
    split; [reflexivity|]. split; [exact E|]. split; [reflexivity | lia].
Qed.

Lemma history_buttons_no_click (clicked : string -> bool)
    (st : SessionState) (items : list HistoryEntry) :
  (forall key, clicked key = false) ->
  forall i,
    history_buttons i items clicked st
    = (map (fun p => HistoryButton (history_label (fst p) (h_query (snd p)))
                       (history_key (fst p)))
         (combine (seq i (List.length items)) items),
       st, false).
Proof.
  intros Hno. induction items as [|item rest IH]; intros i; [reflexivity|].
  cbn [history_buttons]. rewrite Hno, IH. reflexivity.
Qed.

Lemma newest_five (history : list HistoryEntry) :
  rev (py_list_last 5 history) = firstn 5 (rev history).
Proof. unfold py_list_last. symmetry. apply firstn_rev. Qed.

(** X23.  With no button clicked, the sidebar shows nothing for an empty
    or missing history, and otherwise the header and one button for each
    of the five newest entries, or for all when there are fewer, newest
    first and numbered from 1; the session is left as it is. *)
Theorem history_sidebar_shown (clicked : string -> bool)
    (st : SessionState) :
  (forall key, clicked key = false) ->
  display_search_history clicked st
  = (match get_history st with
     | [] => []
     | _ =>
         RecentSearchesHeader
         :: map (fun p =>
                   HistoryButton (history_label (fst p) (h_query (snd p)))
                     (history_key (fst p)))
              (combine (seq 1 5) (firstn 5 (rev (get_history st))))
     end,
     st, false).
Proof.
  intros Hno. unfold display_search_history.
  destruct (get_history st) as [|e h] eqn:E; [reflexivity|].
  rewrite history_buttons_no_click by exact Hno.
  rewrite newest_five.
  set (items := firstn 5 (rev (e :: h))).
  assert (List.length items <= 5)%nat as Hlen
    by (unfold items; apply firstn_le_length).
  f_equal. f_equal. f_equal. f_equal.
  clearbody items. clear - Hlen.
  destruct items as [|a [|b [|c [|d [|f [|g items]]]]]]; simpl in *;
    try reflexivity; lia.
Qed.

Lemma history_buttons_click (clicked : string -> bool) (st : SessionState)
    (items : list HistoryEntry) :
  forall (i j : nat) (item : HistoryEntry),
    nth_error items j = Some item ->
    (forall j', (j' < j)%nat -> clicked (history_key (i + j')) = false) ->
    clicked (history_key (i + j)) = true ->
    snd (fst (history_buttons i items clicked st))
    = set_current_query (h_query item) st
    /\ snd (history_buttons i items clicked st) = true
    /\ List.length (fst (fst (history_buttons i items clicked st))) = S j.
Proof.
  induction items as [|x rest IH]; intros i j item Hnth Hbefore Hclick.
  - destruct j; discriminate.
  - cbn [history_buttons]. destruct j as [|j].
    + injection Hnth as ->. rewrite Nat.add_0_r in Hclick.
      rewrite Hclick. repeat split.
    + pose proof (Hbefore 0%nat ltac:(lia)) as H0.
      rewrite Nat.add_0_r in H0. rewrite H0.
      destruct (IH (S i) j item Hnth) as [H1 [H2 H3]].
      * intros j' Hj'. replace (S i + j')%nat with (i + S j')%nat by lia.
        apply Hbefore. lia.
      * replace (S i + j)%nat with (i + S j)%nat by lia. exact Hclick.
      * destruct (history_buttons (S i) rest clicked st) as [[ws st'] rr].
        simpl in *. subst. repeat split. f_equal. exact H3.
Qed.

(** X24.  A click on the button of the entry at place [j] among the
    newest five, counted from 0 at the newest, makes that entry's query,
    whole and not as cut for the label, the current query and asks for a
    rerun; the buttons after it are not shown in that run, and the
    history is not changed. *)
Theorem history_button_click (clicked : string -> bool)
    (st : SessionState) (j : nat) (item : HistoryEntry) :
  (j < 5)%nat ->
  nth_error (rev (get_history st)) j = Some item ->
  (forall j', (j' < j)%nat -> clicked (history_key (S j')) = false) ->
  clicked (history_key (S j)) = true ->
  let r := display_search_history clicked st in
  snd (fst r) = set_current_query (h_query item) st
  /\ snd r = true
  /\ List.length (fst (fst r)) = S (S j)
  /\ get_history (snd (fst r)) = get_history st.
Proof.
  intros Hj Hnth Hbefore Hclick. cbv zeta.
  unfold display_search_history.
  destruct (get_history st) as [|e h] eqn:E.
  - destruct j; discriminate.
  - rewrite newest_five.
    destruct (history_buttons_click clicked st (firstn 5 (rev (e :: h)))
                1 j item) as [H1 [H2 H3]].
    + rewrite nth_error_firstn.
      destruct (Nat.ltb_spec j 5) as [_ | H]; [exact Hnth | lia].
    + exact Hbefore.
    + exact Hclick.
    + destruct (history_buttons 1 (firstn 5 (rev (e :: h))) clicked st)
        as [[ws st'] rr].
      simpl in *. subst. repeat split.
      * f_equal. exact H3.
      * unfold get_history, set_current_query in *. simpl. exact E.
Qed.

(** *** The formatted sources *)

Lemma str_contains_trans (a b c : string) :
  str_contains a b -> str_contains b c -> str_contains a c.
Proof.
  intros [pre [post ->]] [pre' [post' ->]].
  exists (pre ++ pre')%string, (post' ++ post)%string.
  rewrite !str_app_assoc. reflexivity.
Qed.

Lemma format_sources_loop_map (sources : list SourceDict) :
  forall (i : nat) (formatted : list string),
    format_sources_loop i sources formatted
    = formatted
        ++ map (fun p => format_source (fst p) (snd p))
             (combine (seq i (List.length sources)) sources).
Proof.
  induction sources as [|source rest IH]; intros i formatted; simpl.
  - rewrite app_nil_r. reflexivity.
  - rewrite IH, <- app_assoc. reflexivity.
Qed.

Lemma combine_seq_nth {A : Type} (l : list A) :
  forall (i k : nat) (x : A),
    nth_error l k = Some x ->
    In ((i + k)%nat, x) (combine (seq i (List.length l)) l).
Proof.
  induction l as [|a l IH]; intros i k x H; [destruct k; discriminate|].
  destruct k as [|k]; simpl in *.
  - injection H as ->. left. rewrite Nat.add_0_r. reflexivity.
  - right. replace (i + S k)%nat with (S i + k)%nat by lia.
    apply IH. exact H.
Qed.

(** X25.  Every source appears in the formatted text with its number,
    counted from 1 in the order of the list, and its title linked to its
    url; a missing title reads ["Unknown"] and a missing url ["#"]. *)
Theorem format_sources_cites_each (sources : list SourceDict) (k : nat)
    (source : SourceDict) :
  nth_error sources k = Some source ->
  str_contains (format_sources sources)
    (str_of_nat (S k) ++ ". **["
       ++ match sd_title source with Some t => t | None => "Unknown" end
       ++ "]("
       ++ match sd_url source with Some u => u | None => "#" end
       ++ ")**").
Proof.
  intros Hnth. unfold format_sources.
  destruct sources as [|s0 rest] eqn:E; [destruct k; discriminate|].
  rewrite <- E in *. clear E s0 rest.
  rewrite format_sources_loop_map. cbn [app].
  apply str_contains_trans with (b := format_source (S k) source).
  - apply py_join_contains.
    apply (in_map (fun p => format_source (fst p) (snd p)) _
             (S k, source)).
    exact (combine_seq_nth sources 1 k source Hnth).
  - unfold format_source.
    destruct (str_is_empty _).
    + exists EmptyString, EmptyString. simpl.
      rewrite str_app_nil_r. reflexivity.
    + exists EmptyString. eexists. simpl. reflexivity.
Qed.

(** X26.  Under its link an entry shows the summary between stars on a
    line of its own: whole when it has at most 200 characters, its first
    200 characters and three dots when it is longer, and no such line
    when the summary is empty or missing. *)
Theorem format_source_summary (i : nat) (source : SourceDict) :
  let link :=
    (str_of_nat i ++ ". **["
       ++ match sd_title source with Some t => t | None => "Unknown" end
       ++ "]("
       ++ match sd_url source with Some u => u | None => "#" end
       ++ ")**")%string in
  let summary :=
    match sd_summary source with Some x => x | None => EmptyString end in
  (summary = EmptyString -> format_source i source = link)
  /\ (summary <> EmptyString -> (String.length summary <= 200)%nat ->
      format_source i source
      = (link ++ nl ++ "   *" ++ summary ++ "*")%string)
  /\ ((200 < String.length summary)%nat ->
      exists prefix rest,
        summary = (prefix ++ rest)%string
        /\ String.length prefix = 200%nat
        /\ format_source i source
           = (link ++ nl ++ "   *" ++ prefix ++ "...*")%string).
Proof.
  cbv zeta. unfold format_source, summary_line.
  set (summary := match sd_summary source with
                  | Some x => x | None => EmptyString end).
  change (py_str_upto 200 summary) with (str_take 200 summary).
  split; [|split].
  - intros ->. reflexivity.
  - intros Hne Hlen. apply str_is_empty_false in Hne. rewrite Hne.
    rewrite str_take_all by exact Hlen.
    destruct (Nat.ltb_spec 200 (String.length summary)); [lia|].
    reflexivity.
  - intros Hlen.
    destruct (str_take_prefix 200 summary) as [rest [Hsplit Hl]]; [lia|].
    exists (str_take 200 summary), rest.
    split; [exact Hsplit|]. split; [exact Hl|].
    assert (str_is_empty summary = false) as ->
      by (destruct summary; [simpl in Hlen; lia | reflexivity]).
    destruct (Nat.ltb_spec 200 (String.length summary)); [|lia].
    reflexivity.
Qed.

(** ** The request handling *)

Lemma str_lstrip_all_space (s : string) :
  all_space s = true -> str_lstrip s = EmptyString.
Proof.
  induction s as [|c s IH]; simpl; [reflexivity|].
  intros H. apply andb_prop in H as [Hc Hs]. rewrite Hc. exact (IH Hs).
Qed.

Lemma str_lstrip_some (s : string) :
  all_space s = false ->
  exists c rest, str_lstrip s = String c rest /\ isspace c = false.
Proof.
  induction s as [|c s IH]; [discriminate|].
  unfold all_space in *. cbn [str_forallb str_lstrip].
  destruct (isspace c) eqn:Hc; cbn [andb].
  - exact IH.
  - intros _. exists c, s. split; [reflexivity | exact Hc].
Qed.

(** [query.strip()] is empty exactly for a query of whitespace only. *)
Lemma py_strip_empty (s : string) :
  str_is_empty (py_strip s) = all_space s.
Proof.
  unfold py_strip. destruct (all_space s) eqn:E.
  - rewrite str_lstrip_all_space by exact E. reflexivity.
  - destruct (str_lstrip_some s E) as [c [rest [-> Hc]]].
    simpl. rewrite Hc. reflexivity.
Qed.

Section RequestHandling.

Variable World : Type.
Variable search_provider : World -> string -> Z -> SearchOutcome * World.
Variable page_provider : World -> string -> PageOutcome * World.
Variable chat_provider : World -> ChatRequest -> ChatOutcome * World.

(** X27.  A query that is empty or all whitespace never reaches the
    pipeline: no provider is called, the session and its history stay as
    they are, and the page shows the warning when the button was
    pressed and nothing otherwise. *)
Theorem blank_query_not_researched (max_results max_content_length : Z)
    (search_button : bool) (query : string) (st : SessionState)
    (w : World) :
  all_space query = true ->
  process_search_request World search_provider page_provider chat_provider
    max_results max_content_length search_button query st w
  = ((st, if search_button then [BlankQueryWarning] else []), w, []).
Proof.
  intros Hblank. unfold process_search_request.
  rewrite py_strip_empty, Hblank.
  destruct search_button; reflexivity.
Qed.

(** X28.  A query with a character that is not whitespace, sent with
    the button, is researched once and as typed, without stripping: the
    calls are those of [research] on it.  It becomes the current query,
    and its result is appended to the history of the session: the new
    history is the old one, without its oldest entries beyond nine,
    followed by the entry of this request, so it holds at most ten
    entries.  The page shows this result. *)
Theorem request_researched_and_recorded
    (max_results max_content_length : Z) (query : string)
    (st : SessionState) (w : World) :
  all_space query = false ->
  let r :=
    research World search_provider page_provider chat_provider
      max_results max_content_length query w in
  let out :=
    process_search_request World search_provider page_provider
      chat_provider max_results max_content_length true query st w in
  calls World out = calls World r
  /\ world_after World out = world_after World r
  /\ snd (value World out) = display_research_results (value World r)
  /\ current_query (fst (value World out)) = Some query
  /\ (exists dropped kept,
        get_history st = dropped ++ kept
        /\ List.length dropped = (List.length (get_history st) - 9)%nat
        /\ get_history (fst (value World out))
           = kept ++ [{| h_query := query; h_result := value World r;
                         h_timestamp := get_timestamp st |}])
  /\ (List.length (get_history (fst (value World out))) <= 10)%nat.
Proof.
  intros Hquery. cbv zeta. unfold process_search_request.
  rewrite py_strip_empty, Hquery. cbn [andb negb].
  unfold bind.
  destruct (research World search_provider page_provider chat_provider
              max_results max_content_length query w)
    as [[result w'] t].
  unfold ret, value, world_after, calls. cbn [fst snd].
  rewrite app_nil_r.
  destruct (add_to_history_step query result (set_current_query query st))
    as [[dropped [kept [Hold [Hdropped Hlast]]]] [Hten [Hcq _]]].
  split; [reflexivity|]. split; [reflexivity|]. split; [reflexivity|].
  split; [rewrite Hcq; reflexivity|]. split; [|exact Hten].
  exists dropped, kept.
  split; [exact Hold|]. split; [exact Hdropped | exact Hlast].
Qed.

End RequestHandling.

(** ** Sample runs *)

(** Three titles found, one of them ambiguous: three documents, the
    generated text as answer, three sources in the order of the fetches,
    after one search, four fetches and one generation call. *)
Example research_quantum_computing :
  let r := research nat Demo.search Demo.page Demo.chat 3 3000
             "Quantum computing" 0%nat in
  get_search_results (value nat r) = ["Quantum computing"; "Qubit"; "Mercury"]
  /\ map doc_title (get_documents (value nat r))
     = ["Quantum computing"; "Qubit"; "Mercury (planet)"]
  /\ get_answer (value nat r) = "Quantum computers use qubits."
  /\ map src_title (get_sources (value nat r))
     = ["Quantum computing"; "Qubit"; "Mercury (planet)"]
  /\ world_after nat r = 6%nat.
Proof. vm_compute. repeat split; reflexivity. Qed.

(** Nothing found, neither for the query nor for its first token: no
    fetch, no generation call, the apology as answer. *)
Example research_nothing_found :
  research nat Demo.search Demo.page Demo.chat 3 3000 "asdkjhqwe123 xyz"
    0%nat
  = ({| d_query := Some "asdkjhqwe123 xyz"; d_search_results := Some [];
        d_documents := Some []; d_answer := Some apology_text;
        d_sources := Some [];
        d_error := Some "No search results to process" |},
     2%nat,
     [EvSearch "asdkjhqwe123 xyz" 3 (SearchOk []);
      EvSearch "asdkjhqwe123" 3 (SearchOk [])]).
Proof. reflexivity. Qed.

(** The bound of C1 rests on the provider: the search node returns the
    list of a search that ignores its limit as it is. *)
Remark unbounded_search_is_not_capped :
  get_search_results
    (value nat
       (WikipediaSearchNode nat Demo.search_unbounded 3
          (Demo.inputs "Quantum computing" [] []) 0%nat))
  = Demo.catalogue.
Proof. reflexivity. Qed.

(** ** The claims on the sample providers *)

Lemma demo_search_honours_limit : honours_limit nat Demo.search.
Proof.
  intros w w' term n titles Hn. unfold Demo.search.
  destruct (String.eqb term "Quantum computing" || String.eqb term "Quantum");
    intros H;
    injection H as <- _; [rewrite length_firstn | simpl]; lia.
Qed.

Lemma documents_le_search_results_le_max_witness :
  let state :=
    value nat (research nat Demo.search Demo.page Demo.chat 3 20
                 "Quantum computing" 0%nat) in
  (List.length (get_documents state)
     <= List.length (get_search_results state))%nat
  /\ Z.of_nat (List.length (get_search_results state)) <= 3.
Proof.
  cbv zeta.
  destruct (documents_le_search_results_le_max nat Demo.search Demo.page
              Demo.chat 3 20 "Quantum computing" 0%nat)
    as [Hdocs [_ Hmax]].
  split; [exact Hdocs|]. apply Hmax.
  - lia.
  - exact demo_search_honours_limit.
Defined.

(** C1, as stated, fails in two ways.  A search that returns more titles
    than it is asked for is passed on: four search results for
    [max_results] 3.  And with a negative [max_results] even an empty
    list of search results is longer than [max_results]. *)
Lemma search_results_exceed_max :
  (let state :=
     value nat (research nat Demo.search_unbounded Demo.page Demo.chat 3
                  3000 "Quantum computing" 0%nat) in
   get_search_results state = Demo.catalogue
   /\ ~ Z.of_nat (List.length (get_search_results state)) <= 3)
  /\ (let state :=
        value nat (research nat Demo.search Demo.page Demo.chat (-1) 3000
                     "Quantum computing" 0%nat) in
      get_search_results state = []
      /\ ~ Z.of_nat (List.length (get_search_results state)) <= -1).
Proof.
  cbv zeta. split; (split; [reflexivity|]).
  - vm_compute. intros H. apply H. reflexivity.
  - vm_compute. intros H. apply H. reflexivity.
Qed.

Lemma stored_body_truncated_witness :
  exists page,
    In (EvPage "Qubit" (PageOk page))
       (calls nat (WikipediaSummaryNode nat Demo.page 10
                     (Demo.inputs "Quantum computing" ["Qubit"] []) 0%nat))
    /\ (str_len (page_content page) > 10 ->
        exists prefix rest,
          page_content page = (prefix ++ rest)%string
          /\ str_len prefix = 10
          /\ doc_content (Demo.document "Qubit"
                            "Content of... [Content truncated]")
             = (prefix ++ "... [Content truncated]")%string)
    /\ (str_len (page_content page) <= 10 ->
        doc_content (Demo.document "Qubit"
                       "Content of... [Content truncated]")
        = page_content page).
Proof.
  apply (stored_body_truncated nat Demo.page 10
           (Demo.inputs "Quantum computing" ["Qubit"] []) 0%nat
           (Demo.document "Qubit" "Content of... [Content truncated]")).
  - lia.
  - vm_compute. left. reflexivity.
Defined.

Lemma no_documents_apology_witness :
  GPTSummarizerNode nat Demo.chat (Demo.inputs "asdkjhqwe123" [] []) 5%nat
  = ({| d_query := None; d_search_results := None; d_documents := None;
        d_answer :=
          Some "I couldn't find any relevant Wikipedia articles for your query. Please try rephrasing your question or using different keywords.";
        d_sources := Some []; d_error := None |},
     5%nat, []).
Proof.
  apply (no_documents_apology nat Demo.chat
           (Demo.inputs "asdkjhqwe123" [] []) 5%nat).
  - simpl. discriminate.
  - reflexivity.
Defined.

Lemma generation_fault_keeps_sources_witness :
  let inputs :=
    Demo.inputs "What is a qubit?" ["Qubit"]
      [Demo.document "Qubit" "Content of Qubit"] in
  value nat (GPTSummarizerNode nat Demo.chat_down inputs 0%nat)
  = {| d_query := Some "What is a qubit?"; d_search_results := None;
       d_documents := None;
       d_answer :=
         Some ("I encountered an error while processing your request: "
               ++ "Connection error.")%string;
       d_sources :=
         Some [{| src_title := "Qubit";
                  src_url := "https://en.wikipedia.org/wiki/Qubit";
                  src_summary := "About Qubit" |}];
       d_error := None |}.
Proof.
  apply (generation_fault_keeps_sources nat Demo.chat_down
           (Demo.inputs "What is a qubit?" ["Qubit"]
              [Demo.document "Qubit" "Content of Qubit"]) 0%nat
           (synthesis_request "What is a qubit?"
              [Demo.document "Qubit" "Content of Qubit"])
           "Connection error.").
  - simpl. discriminate.
  - simpl. discriminate.
  - vm_compute. left. reflexivity.
Defined.

Lemma empty_query_no_calls_witness :
  research nat Demo.search Demo.page Demo.chat 3 3000 EmptyString 7%nat
  = ({| d_query := Some EmptyString; d_search_results := Some [];
        d_documents := Some []; d_answer := Some "No query provided";
        d_sources := Some [];
        d_error := Some "No search results to process" |}, 7%nat, []).
Proof.
  apply (empty_query_no_calls nat Demo.search Demo.page Demo.chat 3 3000
           (Demo.inputs EmptyString [] []) 7%nat).
  reflexivity.
Defined.

(** C3, as stated, fails on a query of one space: the search node does
    not report it but sends it to the provider, twice. *)
Lemma whitespace_query_is_searched :
  all_space " " = true
  /\ WikipediaSearchNode nat Demo.search 3 (Demo.inputs " " [] []) 0%nat
     = ({| d_query := Some " "; d_search_results := Some [];
           d_documents := None; d_answer := None; d_sources := None;
           d_error := None |},
        2%nat,
        [EvSearch " " 3 (SearchOk []); EvSearch " " 3 (SearchOk [])]).
Proof. split; reflexivity. Qed.

(** C6, as stated, fails when the generation provider returns the empty
    text: it becomes the answer. *)
Lemma silent_generation_empty_answer :
  d_answer
    (value nat (research nat Demo.search Demo.page Demo.chat_silent 3 3000
                  "Quantum computing" 0%nat))
  = Some EmptyString.
Proof. vm_compute. reflexivity. Qed.

Lemma zero_results_retry_witness :
  let inputs := Demo.inputs "Quantum mechanics explained" [] [] in
  calls nat (WikipediaSearchNode nat Demo.search 3 inputs 0%nat)
  = [EvSearch "Quantum mechanics explained" 3 (SearchOk []);
     EvSearch "Quantum" 3 (SearchOk ["Quantum computing"; "Qubit"; "Mercury"])]
  /\ value nat (WikipediaSearchNode nat Demo.search 3 inputs 0%nat)
     = {| d_query := Some "Quantum mechanics explained";
          d_search_results := Some ["Quantum computing"; "Qubit"; "Mercury"];
          d_documents := None; d_answer := None; d_sources := None;
          d_error := None |}
  /\ simplified_query "Quantum mechanics explained" = "Quantum".
Proof.
  cbv zeta.
  destruct (zero_results_retry nat Demo.search 3
              (Demo.inputs "Quantum mechanics explained" [] []) 0%nat 1%nat)
    as [Hcalls [Hvalue [Htoken _]]].
  - simpl. discriminate.
  - reflexivity.
  - split; [exact Hcalls|]. split.
    + apply Hvalue. reflexivity.
    + apply (Htoken EmptyString "Quantum" " mechanics explained");
        [reflexivity | reflexivity | discriminate | reflexivity |].
      right. exists " "%char, "mechanics explained". split; reflexivity.
Defined.

(** C7, as stated, fails on a query of one space: it is not empty, its
    search returns nothing, and it has no token; the retry is made with the
    query itself. *)
Lemma whitespace_query_retry_without_token :
  get_query (Demo.inputs " " [] []) <> EmptyString
  /\ Demo.search 0%nat " " 3 = (SearchOk [], 1%nat)
  /\ py_split " " = []
  /\ calls nat
       (WikipediaSearchNode nat Demo.search 3 (Demo.inputs " " [] []) 0%nat)
     = [EvSearch " " 3 (SearchOk []); EvSearch " " 3 (SearchOk [])]
  /\ ~ In " " (py_split " ").
Proof.
  split; [simpl; discriminate|].
  repeat split; try reflexivity. simpl. tauto.
Qed.

Lemma sources_follow_documents_witness :
  let documents :=
    [Demo.document "Qubit" "Content of Qubit";
     Demo.document "Mercury (planet)" "Content of Mercury (planet)"] in
  let fetch_inputs :=
    Demo.inputs "Mercury and qubits"
      ["Qubit"; "Mercury (element)"; "Mercury"] [] in
  d_sources
    (value nat
       (GPTSummarizerNode nat Demo.chat
          (Demo.inputs "Mercury and qubits" [] documents) 0%nat))
  = Some [{| src_title := "Qubit";
             src_url := "https://en.wikipedia.org/wiki/Qubit";
             src_summary := "About Qubit" |};
          {| src_title := "Mercury (planet)";
             src_url := "https://en.wikipedia.org/wiki/Mercury (planet)";
             src_summary := "About Mercury (planet)" |}]
  /\ (let results :=
        value nat (fetch_each_spec nat Demo.page 3000
                     (get_search_results fetch_inputs) 0%nat) in
      get_documents
        (value nat (WikipediaSummaryNode nat Demo.page 3000 fetch_inputs
                      0%nat))
      = fetched results
      /\ List.length results
         = List.length (get_search_results fetch_inputs)).
Proof.
  apply (sources_follow_documents nat Demo.page Demo.chat 3000
           (Demo.inputs "Mercury and qubits" []
              [Demo.document "Qubit" "Content of Qubit";
               Demo.document "Mercury (planet)"
                 "Content of Mercury (planet)"])
           (Demo.inputs "Mercury and qubits"
              ["Qubit"; "Mercury (element)"; "Mercury"] [])
           0%nat 0%nat).
  - simpl. discriminate.
  - simpl. discriminate.
Defined.

(** C8, as stated, fails when the query is empty: the documents are
    there and the sources are not. *)
Lemma empty_query_drops_sources :
  let inputs :=
    Demo.inputs EmptyString [] [Demo.document "Qubit" "Content of Qubit"] in
  get_documents inputs <> []
  /\ d_sources (value nat (GPTSummarizerNode nat Demo.chat inputs 0%nat))
     = Some [].
Proof. cbv zeta. split; [simpl; discriminate | reflexivity]. Qed.

Lemma disambiguation_uses_first_option_witness :
  get_documents
    (value nat
       (WikipediaSummaryNode nat Demo.page 3000
          (Demo.inputs "Mercury and qubits"
             ["Qubit"; "Mercury"; "Quantum entanglement"] []) 0%nat))
  = [Demo.document "Qubit" "Content of Qubit";
     Demo.document "Mercury (planet)" "Content of Mercury (planet)";
     Demo.document "Quantum entanglement" "Content of Quantum entanglement"].
Proof.
  destruct (disambiguation_uses_first_option nat Demo.page 3000
              (Demo.inputs "Mercury and qubits"
                 ["Qubit"; "Mercury"; "Quantum entanglement"] [])
              ["Qubit"] ["Quantum entanglement"] ["Mercury (element)"]
              "Mercury" "Mercury (planet)" 0%nat 2%nat)
    as [Hok _].
  - reflexivity.
  - reflexivity.
  - destruct (Hok {| page_content := "Content of Mercury (planet)";
                     page_url :=
                       "https://en.wikipedia.org/wiki/Mercury (planet)";
                     page_summary := Some "About Mercury (planet)" |})
      as [d [Hd [_ Hdocs]]]; [reflexivity|].
    rewrite Hdocs, Hd. reflexivity.
Defined.

Lemma history_keeps_last_ten_witness :
  let st :=
    initialize_session_state
      {| research_history := None; current_query := None;
         timestamp := None |} in
  let requests :=
    map (fun q => (q, Demo.inputs q [] []))
      ["q1"; "q2"; "q3"; "q4"; "q5"; "q6"; "q7"; "q8"; "q9"; "q10"; "q11";
       "q12"] in
  map h_query (get_history (add_all requests st))
  = ["q3"; "q4"; "q5"; "q6"; "q7"; "q8"; "q9"; "q10"; "q11"; "q12"].
Proof.
  cbv zeta.
  destruct (history_keeps_last_ten
              (initialize_session_state
                 {| research_history := None; current_query := None;
                    timestamp := None |})
              (map (fun q => (q, Demo.inputs q [] []))
                 ["q1"; "q2"; "q3"; "q4"; "q5"; "q6"; "q7"; "q8"; "q9";
                  "q10"; "q11"; "q12"]))
    as [_ [_ [_ H12]]].
  - simpl. lia.
  - destruct H12 as [_ H]; [reflexivity|]. rewrite H. reflexivity.
Defined.

(** ** The further properties on the sample providers *)

Lemma search_fault_reported_witness :
  value nat
    (WikipediaSearchNode nat Demo.search_down 3
       (Demo.inputs "Quantum computing" [] []) 0%nat)
  = {| d_query := Some "Quantum computing"; d_search_results := Some [];
       d_documents := None; d_answer := None; d_sources := None;
       d_error := Some "HTTP request timed out." |}.
Proof.
  apply (search_fault_reported nat Demo.search_down 3
           (Demo.inputs "Quantum computing" [] []) 0%nat
           "Quantum computing" 3 "HTTP request timed out.").
  vm_compute. left. reflexivity.
Defined.

Lemma search_disambiguation_options_witness :
  exists titles rest,
    Demo.catalogue = titles ++ rest
    /\ List.length titles = Nat.min (Z.to_nat 3) (List.length Demo.catalogue)
    /\ value nat
         (WikipediaSearchNode nat Demo.search_ambiguous 3
            (Demo.inputs "Mercury" [] []) 0%nat)
       = {| d_query := Some "Mercury"; d_search_results := Some titles;
            d_documents := None; d_answer := None; d_sources := None;
            d_error := None |}.
Proof.
  apply (search_disambiguation_options nat Demo.search_ambiguous 3
           (Demo.inputs "Mercury" [] []) 0%nat "Mercury" 3 Demo.catalogue).
  - lia.
  - vm_compute. left. reflexivity.
Defined.

Lemma search_titles_returned_witness :
  value nat
    (WikipediaSearchNode nat Demo.search 2
       (Demo.inputs "Quantum field theory" [] []) 0%nat)
  = {| d_query := Some "Quantum field theory";
       d_search_results := Some ["Quantum computing"; "Qubit"];
       d_documents := None; d_answer := None; d_sources := None;
       d_error := None |}.
Proof.
  apply (search_titles_returned nat Demo.search 2
           (Demo.inputs "Quantum field theory" [] []) 0%nat "Quantum" 2
           "Quantum computing" ["Qubit"]).
  vm_compute. right. left. reflexivity.
Defined.

Lemma all_fetches_fail_no_error_witness :
  value nat
    (WikipediaSummaryNode nat Demo.page_down 3000
       (Demo.inputs "Quantum computing" ["Quantum computing"; "Qubit"] [])
       0%nat)
  = {| d_query := Some "Quantum computing"; d_search_results := None;
       d_documents := Some []; d_answer := None; d_sources := None;
       d_error := None |}.
Proof.
  apply (all_fetches_fail_no_error nat Demo.page_down 3000
           (Demo.inputs "Quantum computing" ["Quantum computing"; "Qubit"] [])
           0%nat).
  - intros w title page. simpl. discriminate.
  - simpl. discriminate.
Defined.

Lemma stored_summary_capped_witness :
  exists page,
    In (EvPage "Qubit" (PageOk page))
       (calls nat (WikipediaSummaryNode nat Demo.page 3000
                     (Demo.inputs "Quantum computing" ["Qubit"] []) 0%nat))
    /\ "https://en.wikipedia.org/wiki/Qubit" = page_url page
    /\ (String.length "About Qubit" <= 500)%nat
    /\ match page_summary page with
       | Some s => exists rest, s = ("About Qubit" ++ rest)%string
       | None => "About Qubit" = EmptyString
       end.
Proof.
  apply (stored_summary_capped nat Demo.page 3000
           (Demo.inputs "Quantum computing" ["Qubit"] []) 0%nat
           (Demo.document "Qubit" "Content of Qubit")).
  vm_compute. left. reflexivity.
Defined.

Lemma stored_body_bounded_witness :
  str_len "Content of... [Content truncated]" <= 10 + 23.
Proof.
  apply (stored_body_bounded nat Demo.page 10
           (Demo.inputs "Quantum computing" ["Qubit"] []) 0%nat
           (Demo.document "Qubit" "Content of... [Content truncated]")).
  - lia.
  - vm_compute. left. reflexivity.
Defined.

Lemma failed_title_is_skipped_witness :
  let r :=
    WikipediaSummaryNode nat Demo.page 3000
      (Demo.inputs "Mercury and qubits"
         ["Qubit"; "Mercury (element)"; "Quantum entanglement"] []) 0%nat in
  map doc_title (get_documents (value nat r))
  = ["Qubit"; "Quantum entanglement"]
  /\ List.length (calls nat r) = 3%nat.
Proof.
  cbv zeta.
  destruct (failed_title_is_skipped nat Demo.page 3000
              (Demo.inputs "Mercury and qubits"
                 ["Qubit"; "Mercury (element)"; "Quantum entanglement"] [])
              ["Qubit"] ["Quantum entanglement"] "Mercury (element)"
              0%nat 2%nat PageError)
    as [Hdocs Hcalls].
  - reflexivity.
  - reflexivity.
  - left. reflexivity.
  - rewrite Hdocs, Hcalls. split; reflexivity.
Defined.


Lemma generated_answer_passed_through_witness :
  value nat
    (GPTSummarizerNode nat Demo.chat
       (Demo.inputs "What is a qubit?" ["Qubit"]
          [Demo.document "Qubit" "Content of Qubit"]) 0%nat)
  = {| d_query := Some "What is a qubit?"; d_search_results := None;
       d_documents := None;
       d_answer := Some "Quantum computers use qubits.";
       d_sources :=
         Some [{| src_title := "Qubit";
                  src_url := "https://en.wikipedia.org/wiki/Qubit";
                  src_summary := "About Qubit" |}];
       d_error := None |}.
Proof.
  apply (generated_answer_passed_through nat Demo.chat
           (Demo.inputs "What is a qubit?" ["Qubit"]
              [Demo.document "Qubit" "Content of Qubit"]) 0%nat
           (synthesis_request "What is a qubit?"
              [Demo.document "Qubit" "Content of Qubit"])
           "Quantum computers use qubits.").
  vm_compute. left. reflexivity.
Defined.

Lemma prompt_holds_query_and_documents_witness :
  let documents := [Demo.document "Qubit" "Content of Qubit"] in
  let prompt :=
    chat_prompt (synthesis_request "What is a qubit?" documents) in
  str_contains prompt ("User Question: " ++ "What is a qubit?" ++ nl)
  /\ str_contains prompt ("**" ++ "Qubit" ++ "**:" ++ nl ++ "Content of Qubit").
Proof.
  cbv zeta.
  destruct (prompt_holds_query_and_documents nat Demo.chat
              (Demo.inputs "What is a qubit?" ["Qubit"]
                 [Demo.document "Qubit" "Content of Qubit"]) 0%nat
              (synthesis_request "What is a qubit?"
                 [Demo.document "Qubit" "Content of Qubit"])
              (ChatOk "Quantum computers use qubits."))
    as [Hquery Hdocs].
  - vm_compute. left. reflexivity.
  - split; [exact Hquery|].
    apply (Hdocs (Demo.document "Qubit" "Content of Qubit")).
    left. reflexivity.
Defined.

Lemma research_without_documents_witness :
  let r := research nat Demo.search Demo.page Demo.chat 3 3000
             "asdkjhqwe123 xyz" 0%nat in
  d_answer (value nat r)
  = Some "I couldn't find any relevant Wikipedia articles for your query. Please try rephrasing your question or using different keywords."
  /\ d_sources (value nat r) = Some []
  /\ forallb (fun e => negb (is_chat e)) (calls nat r) = true.
Proof.
  apply (research_without_documents nat Demo.search Demo.page Demo.chat
           3 3000 "asdkjhqwe123 xyz" 0%nat).
  reflexivity.
Defined.

Lemma history_sidebar_shown_witness :
  let st :=
    add_all (map (fun q => (q, Demo.inputs q [] []))
               ["q1"; "q2"; "q3"; "q4"; "q5"; "q6"; "q7"])
      (initialize_session_state
         {| research_history := None; current_query := None;
            timestamp := None |}) in
  fst (fst (display_search_history (fun _ => false) st))
  = [RecentSearchesHeader;
     HistoryButton "1. q7" "history_1"; HistoryButton "2. q6" "history_2";
     HistoryButton "3. q5" "history_3"; HistoryButton "4. q4" "history_4";
     HistoryButton "5. q3" "history_5"].
Proof.
  cbv zeta. rewrite history_sidebar_shown; [|reflexivity]. reflexivity.
Defined.

Lemma history_button_click_witness :
  let st :=
    add_all (map (fun q => (q, Demo.inputs q [] []))
               ["q1"; "q2"; "q3"; "q4"; "q5"; "q6"; "q7"])
      (initialize_session_state
         {| research_history := None; current_query := None;
            timestamp := None |}) in
  let r := display_search_history (String.eqb "history_3") st in
  current_query (snd (fst r)) = Some "q5" /\ snd r = true.
Proof.
  cbv zeta.
  destruct (history_button_click (String.eqb "history_3")
              (add_all (map (fun q => (q, Demo.inputs q [] []))
                          ["q1"; "q2"; "q3"; "q4"; "q5"; "q6"; "q7"])
                 (initialize_session_state
                    {| research_history := None; current_query := None;
                       timestamp := None |}))
              2 {| h_query := "q5"; h_result := Demo.inputs "q5" [] [];
                   h_timestamp := EmptyString |})
    as [Hst [Hrerun _]].
  - lia.
  - reflexivity.
  - intros [|[|j']] Hj; [reflexivity | reflexivity | lia].
  - reflexivity.
  - rewrite Hst, Hrerun. split; reflexivity.
Defined.

Lemma format_sources_cites_each_witness :
  str_contains
    (format_sources
       [{| sd_title := Some "Qubit";
           sd_url := Some "https://en.wikipedia.org/wiki/Qubit";
           sd_summary := Some "About Qubit" |};
        {| sd_title := None; sd_url := None; sd_summary := None |}])
    ("2" ++ ". **[" ++ "Unknown" ++ "](" ++ "#" ++ ")**").
Proof.
  apply (format_sources_cites_each
           [{| sd_title := Some "Qubit";
               sd_url := Some "https://en.wikipedia.org/wiki/Qubit";
               sd_summary := Some "About Qubit" |};
            {| sd_title := None; sd_url := None; sd_summary := None |}]
           1 {| sd_title := None; sd_url := None; sd_summary := None |}).
  reflexivity.
Defined.

Lemma blank_query_not_researched_witness :
  process_search_request nat Demo.search Demo.page Demo.chat 3 3000 true "  "
    {| research_history := Some []; current_query := Some EmptyString;
       timestamp := None |} 0%nat
  = (({| research_history := Some []; current_query := Some EmptyString;
         timestamp := None |}, [BlankQueryWarning]), 0%nat, []).
Proof.
  apply (blank_query_not_researched nat Demo.search Demo.page Demo.chat
           3 3000 true "  ").
  reflexivity.
Defined.

Lemma request_researched_and_recorded_witness :
  let st := {| research_history := Some []; current_query := Some EmptyString;
               timestamp := None |} in
  let out :=
    process_search_request nat Demo.search Demo.page Demo.chat 3 3000 true
      " Quantum computing" st 0%nat in
  List.length (calls nat out) = 7%nat
  /\ current_query (fst (value nat out)) = Some " Quantum computing"
  /\ (List.length (get_history (fst (value nat out))) <= 10)%nat.
Proof.
  cbv zeta.
  destruct (request_researched_and_recorded nat Demo.search Demo.page
              Demo.chat 3 3000 " Quantum computing"
              {| research_history := Some [];
                 current_query := Some EmptyString; timestamp := None |}
              0%nat)
    as [Hcalls [_ [_ [Hcq [_ Hten]]]]].
  - reflexivity.
  - rewrite Hcalls. split; [reflexivity|]. split; [exact Hcq | exact Hten].
Defined.
